(** * TradeOmen AI microservice: tagging and tool-calling chat endpoints

    A shallow embedding of [app/schemas/llm_schemas.py], [app/libs/config.py]
    and [app/apis/chat.py].  What lies outside the repository is taken as
    given: the provider ([google.genai]) is an oracle held by the client
    handle; pydantic's JSON validation, the text of its report on a
    [ChatMessage] without content, and Python's [str.upper] are parameters
    of the endpoints.  Every provider request and every tool invocation is
    recorded in a trace, so that the number and the order of the calls an
    endpoint makes can be stated.  An endpoint ends with its result, with
    an [HTTPException], or with an exception that no [except] clause of
    the module catches. *)

From Stdlib Require Import ZArith String Ascii List.
From stdpp Require Import base strings list gmap.

Set Warnings "-register-all".

(** ** Python values the endpoints handle *)

(** The line feed of a triple-quoted literal. *)
Definition LF : string := String (ascii_of_nat 10) EmptyString.

(** A value of type [Any] as it arrives from JSON; a number is the decimal
    [mantissa * 10 ^ exponent]. *)
Inductive json : Type :=
  | JNull
  | JBool (b : bool)
  | JNumber (mantissa exponent : Z)
  | JString (s : string)
  | JArray (items : list json)
  | JObject (members : list (string * json)).

(** The exceptions that reach the endpoints' [except] clauses:
    [google.genai.errors.APIError], pydantic's [ValidationError], and any
    other subclass of [Exception] (a [TypeError], a network timeout). *)
Inductive pyexn : Type :=
  | APIError (message : string)
  | ValidationError (message : string)
  | OtherException (message : string).

(** [str(e)], as the f-strings of the handlers format it. *)
Definition str (e : pyexn) : string :=
  match e with
  | APIError m | ValidationError m | OtherException m => m
  end.

Module status.
Definition HTTP_200_OK : Z := 200.
Definition HTTP_401_UNAUTHORIZED : Z := 401.
Definition HTTP_422_UNPROCESSABLE_ENTITY : Z := 422.
Definition HTTP_500_INTERNAL_SERVER_ERROR : Z := 500.
Definition HTTP_502_BAD_GATEWAY : Z := 502.
End status.

Module HTTPException.
Record t : Type := mk { status_code : Z; detail : string }.
End HTTPException.

(** How an endpoint ends when it does not return: with the [HTTPException]
    it raised, or with an exception raised outside every [try] of the
    module, which the endpoint lets escape. *)
Inductive raised : Type :=
  | Http (e : HTTPException.t)
  | Uncaught (e : pyexn).

(** ** app/schemas/llm_schemas.py *)

Module MessageRole.
Definition USER : string := "user".
Definition ASSISTANT : string := "assistant".
Definition TOOL : string := "tool".
End MessageRole.

Module ChatMessage.
Record t : Type := mk {
  role : string;
  content : string;
  tool_calls : option (list (gmap string json));
  tool_call_id : option string
}.

(** [ChatMessage(role=r, content=c)]: [content] is declared [str], so
    pydantic refuses [None] with a [ValidationError], whose text [report]
    is pydantic's; the optional fields take their default. *)
Definition init (report : string) (r : string) (c : option string) : pyexn + t :=
  match c with
  | Some text => inr (mk r text None None)
  | None => inl (ValidationError report)
  end.
End ChatMessage.

Module ChatRequest.
Record t : Type := mk {
  user_id : string;
  user_plan : string;
  history : list ChatMessage.t;
  new_message : ChatMessage.t
}.
End ChatRequest.

Module TaggingRequest.
Record t : Type := mk { notes : string }.
End TaggingRequest.

Module TaggingResponse.
Record t : Type := mk { tags : list string }.
End TaggingResponse.

(** ** app/libs/config.py *)

Module Settings.
Record t : Type := mk {
  PORT : Z;
  GEMINI_API_KEY : string;
  GEMINI_MODEL : string;
  MAIN_BACKEND_URL : string;
  AI_SERVICE_SECRET_KEY : string
}.
End Settings.

(** ** The part of google.genai.types the endpoints build and read *)

Module Type_.
Inductive t : Type := OBJECT | STRING.
End Type_.

Module Schema.
Inductive t : Type :=
  mk (type : Type_.t) (description : option string)
     (properties : list (string * t)) (required : list string).
End Schema.

Module FunctionDeclaration.
Record t : Type := mk {
  name : string;
  description : string;
  parameters : Schema.t
}.
End FunctionDeclaration.

Module Tool.
Record t : Type := mk { function_declarations : list FunctionDeclaration.t }.
End Tool.

Module Part.
Inductive t : Type :=
  | text_part (text : string)
  | from_function_response (name : string) (response : gmap string string).

(** The two ways a caller can pass the text to the classmethod
    [Part.from_text(cls, *, text)]: by position, [Part.from_text(s)], or by
    keyword, [Part.from_text(text=s)]. *)
Inductive from_text_call : Type :=
  | by_position (s : string)
  | by_keyword (s : string).

(** The [TypeError] of a positional argument to [Part.from_text]. *)
Definition TypeError : pyexn :=
  OtherException "Part.from_text() takes 1 positional argument but 2 were given".

(** [text] is keyword-only: a positional argument is refused with a
    [TypeError] before any part is built. *)
Definition from_text (call : from_text_call) : pyexn + t :=
  match call with
  | by_keyword s => inr (text_part s)
  | by_position _ => inl TypeError
  end.
End Part.

Module Content.
Record t : Type := mk { role : string; parts : list Part.t }.
End Content.

(** What [contents=] accepts: a bare prompt string or a [Content]. *)
Inductive ContentUnion : Type :=
  | PromptText (prompt : string)
  | ContentObject (c : Content.t).

Module GenerateContentConfig.
Record t : Type := mk {
  system_instruction : option string;
  tools : list Tool.t;
  response_mime_type : option string;
  (* the name of the pydantic class passed as response_schema *)
  response_schema : option string
}.
End GenerateContentConfig.

(** The keyword arguments of one [models.generate_content] call. *)
Module GenerateContentCall.
Record t : Type := mk {
  model : string;
  contents : list ContentUnion;
  config : option GenerateContentConfig.t
}.
End GenerateContentCall.

Module FunctionCall.
Record t : Type := mk {
  name : option string;
  args : option (gmap string json)
}.
End FunctionCall.

Module GenerateContentResponse.
Record t : Type := mk {
  text : option string;
  function_calls : option (list FunctionCall.t)
}.
End GenerateContentResponse.

(** ** Effects: the trace of outbound calls *)

Inductive Event : Type :=
  | GenerateContent (call : GenerateContentCall.t)
  | ToolInvocation (tool : string) (user_id : string).

Definition Trace : Type := list Event.

(** A computation that may raise an [E] and extends the trace. *)
Definition M (E A : Type) : Type := Trace -> (E + A) * Trace.

Definition ret {E A} (a : A) : M E A := fun tr => (inr a, tr).

Definition raise {E A} (e : E) : M E A := fun tr => (inl e, tr).

Definition lift {E A} (r : E + A) : M E A := fun tr => (r, tr).

Definition bind {E A B} (m : M E A) (k : A -> M E B) : M E B :=
  fun tr =>
    match m tr with
    | (inl e, tr') => (inl e, tr')
    | (inr a, tr') => k a tr'
    end.

Definition emit {E} (ev : Event) : M E unit := fun tr => (inr tt, tr ++ [ev]).

(** [try: body  except ... as e: handler e] *)
Definition try_except {E E' A} (body : M E A) (handler : E -> M E' A) : M E' A :=
  fun tr =>
    match body tr with
    | (inl e, tr') => handler e tr'
    | (inr a, tr') => (inr a, tr')
    end.

Declare Scope py_scope.
Delimit Scope py_scope with py.
Notation "x <- c1 ;; c2" := (bind c1 (fun x => c2))
  (at level 100, c1 at next level, right associativity) : py_scope.
Open Scope py_scope.

(** The number of provider requests and of tool invocations in a trace. *)
Definition is_gateway_call (ev : Event) : bool :=
  match ev with GenerateContent _ => true | ToolInvocation _ _ => false end.

Definition is_tool_call (ev : Event) : bool :=
  match ev with GenerateContent _ => false | ToolInvocation _ _ => true end.

Definition gateway_calls (tr : Trace) : nat := length (List.filter is_gateway_call tr).

Definition tool_calls (tr : Trace) : nat := length (List.filter is_tool_call tr).

(** The [user_id] arguments the tool was invoked with, in order. *)
Definition tool_arguments (tr : Trace) : list string :=
  omap (fun ev => match ev with
                  | ToolInvocation _ uid => Some uid
                  | GenerateContent _ => None
                  end) tr.

(** The provider behind [genai.Client]: the answer to a request may depend
    on everything sent before it. *)
Module Client.
Record t : Type := mk {
  respond : Trace -> GenerateContentCall.t -> pyexn + GenerateContentResponse.t
}.

(** [client.models.generate_content(model=.., contents=.., config=..)] *)
Definition generate_content (client : t) (call : GenerateContentCall.t)
    : M pyexn GenerateContentResponse.t :=
  fun tr => (respond client tr call, tr ++ [GenerateContent call]).
End Client.

(** ** app/apis/chat.py *)

(** [LLM_CLIENT]: the module builds the client once, at import, and keeps
    [None] when the constructor raises. *)
Definition LLM_CLIENT_init (genai_Client : string -> pyexn + Client.t)
    (settings : Settings.t) : option Client.t :=
  match genai_Client (Settings.GEMINI_API_KEY settings) with
  | inr client => Some client
  | inl _ => None
  end.

(** The mocked data fetch behind the tool. *)
Definition trade_summary (user_id : string) : string :=
  LF +:+ "        [Anonymized Trade Summary for ID " +:+ user_id +:+ "]:" +:+ LF +:+
  "        - Total Trades in Q4: 150" +:+ LF +:+
  "        - Net P/L: +$12,500" +:+ LF +:+
  "        - Best Strategy: Breakout (70% Win Rate)" +:+ LF +:+
  "        - Worst Mistake: Over-leveraging on Fridays." +:+ LF +:+
  "    ".

Definition get_user_trade_summary {E} (user_id : string) : M E string :=
  _ <- emit (ToolInvocation "get_user_trade_summary" user_id) ;;
  ret (trade_summary user_id).

Definition TOOL_CONFIG : Tool.t :=
  Tool.mk
    [ FunctionDeclaration.mk
        "get_user_trade_summary"
        "Use this tool to fetch the user's current, anonymized trading performance summary (PNL, best strategy, mistakes) from the database to answer analytical questions."
        (Schema.mk Type_.OBJECT None
           [ ("user_id",
              Schema.mk Type_.STRING
                (Some "The anonymous ID of the user whose data should be retrieved.")
                [] []) ]
           ["user_id"]) ].

(** The names [TOOL_CONFIG] declares to the provider. *)
Definition declared_tools : list string :=
  FunctionDeclaration.name <$> Tool.function_declarations TOOL_CONFIG.

(** The role a history message gets on the provider's side. *)
Definition gemini_role (msg : ChatMessage.t) : string :=
  if bool_decide (ChatMessage.role msg ∈ [MessageRole.USER; MessageRole.TOOL])
  then "user" else "model".

(** [genai_types.Content(role=..., parts=[genai_types.Part.from_text(msg.content)])]:
    the text is passed to [from_text] by position. *)
Definition gemini_content (msg : ChatMessage.t) : pyexn + Content.t :=
  match Part.from_text (Part.by_position (ChatMessage.content msg)) with
  | inl e => inl e
  | inr part => inr (Content.mk (gemini_role msg) [part])
  end.

(** The loop over [request.history]: one [append] per message, unless
    building a message raises, which ends the loop. *)
Definition gemini_contents (history : list ChatMessage.t) : pyexn + list Content.t :=
  fold_left
    (fun acc msg =>
       match acc with
       | inl e => inl e
       | inr contents =>
           match gemini_content msg with
           | inl e => inl e
           | inr c => inr (contents ++ [c])
           end
       end)
    history (inr []).

Definition tagging_prompt (request : TaggingRequest.t) : string :=
  LF +:+
  "    Analyze the following trading journal notes and generate a list of " +:+ LF +:+
  "    relevant tags. The tags should be short (e.g., 'FOMO', 'Breakout', " +:+ LF +:+
  "    'Poor Exit', 'Reversal', 'Good R:R'). " +:+ LF +:+
  "    Only return the JSON object." +:+ LF +:+
  LF +:+
  "    NOTES: " +:+ TaggingRequest.notes request +:+ LF +:+
  "    ".

(** What the server sends back: the response model, the [detail] of an
    [HTTPException], FastAPI's report of a required header that is absent,
    or the plain text it answers an escaped exception with. *)
Inductive ResponseBody (A : Type) : Type :=
  | ModelBody (a : A)
  | DetailBody (detail : string)
  | MissingHeaderBody (alias : string)
  | PlainTextBody (text : string).
Arguments ModelBody {A} a.
Arguments DetailBody {A} detail.
Arguments MissingHeaderBody {A} alias.
Arguments PlainTextBody {A} text.

Module HttpResponse.
Record t (A : Type) : Type := mk { status_code : Z; body : ResponseBody A }.
Arguments mk {A} status_code body.
Arguments status_code {A} _.
Arguments body {A} _.
End HttpResponse.

Section Service.

Variable settings : Settings.t.

(** [str.upper], a builtin of Python that works on Unicode text. *)
Variable str_upper : string -> string.

(** The text of the [ValidationError] pydantic raises for a [ChatMessage]
    whose content is [None]. *)
Variable string_type_report : string.

(** [TaggingResponse.model_validate_json], generated by pydantic: the
    parsed model, or the message of the [ValidationError] it raises. *)
Variable model_validate_json : option string -> string + TaggingResponse.t.

Variable LLM_CLIENT : option Client.t.

Definition verify_internal_auth (auth_key : string) : HTTPException.t + bool :=
  if bool_decide (auth_key <> Settings.AI_SERVICE_SECRET_KEY settings) then
    inl (HTTPException.mk status.HTTP_401_UNAUTHORIZED
           "Invalid microservice authentication key.")
  else inr true.

(** The request of the tagging endpoint. *)
Definition tagging_call (request : TaggingRequest.t) : GenerateContentCall.t :=
  GenerateContentCall.mk
    (Settings.GEMINI_MODEL settings)
    [PromptText (tagging_prompt request)]
    (Some (GenerateContentConfig.mk None [] (Some "application/json")
             (Some "TaggingResponse"))).

(** The two [except] clauses of [tag_trade], in their order: [APIError]
    first, then any other [Exception]. *)
Definition tag_trade_except (e : pyexn) : HTTPException.t :=
  match e with
  | APIError _ =>
      HTTPException.mk status.HTTP_502_BAD_GATEWAY
        ("Gemini API Error during tagging: " +:+ str e)
  | ValidationError _ | OtherException _ =>
      HTTPException.mk status.HTTP_500_INTERNAL_SERVER_ERROR
        ("An unexpected error occurred: " +:+ str e)
  end.

Definition tag_trade (request : TaggingRequest.t) : M HTTPException.t TaggingResponse.t :=
  match LLM_CLIENT with
  | None =>
      raise (HTTPException.mk status.HTTP_500_INTERNAL_SERVER_ERROR
               "AI Service is not initialized.")
  | Some client =>
      try_except
        (response <- Client.generate_content client (tagging_call request) ;;
         match model_validate_json (GenerateContentResponse.text response) with
         | inr parsed => ret parsed
         | inl message => raise (ValidationError message)
         end)
        (fun e => raise (tag_trade_except e))
  end.

Definition system_instruction (request : ChatRequest.t) : string :=
  LF +:+
  "    You are TradeLM, an expert AI Trading Analyst. Your persona is professional, " +:+ LF +:+
  "    data-driven, and focused on helping the user improve their trading performance. " +:+ LF +:+
  "    The user's current plan is: " +:+ str_upper (ChatRequest.user_plan request) +:+ "." +:+ LF +:+
  "    If the user asks an analytical question (e.g., 'What is my win rate?', 'Why did I lose money?'), " +:+ LF +:+
  "    you MUST use the available tool: 'get_user_trade_summary' to gather data " +:+ LF +:+
  "    before generating your final answer." +:+ LF +:+
  "    ".

(** The first request of the chat endpoint, on the messages the loop built. *)
Definition first_query (request : ChatRequest.t) (contents : list Content.t)
    : GenerateContentCall.t :=
  GenerateContentCall.mk
    (Settings.GEMINI_MODEL settings)
    (ContentObject <$> contents)
    (Some (GenerateContentConfig.mk (Some (system_instruction request))
             [TOOL_CONFIG] None None)).

(** The request that carries the tool's output back; it has no [config]. *)
Definition second_query (contents : list Content.t) (tool_output : string)
    : GenerateContentCall.t :=
  GenerateContentCall.mk
    (Settings.GEMINI_MODEL settings)
    (ContentObject <$>
       (contents ++
        [ Content.mk "tool"
            [ Part.from_function_response "get_user_trade_summary"
                {[ "summary" := tool_output ]} ] ]))
    None.

(** The two [except] clauses of [chat_with_ai], in their order. *)
Definition chat_with_ai_except (e : pyexn) : HTTPException.t :=
  match e with
  | APIError _ =>
      HTTPException.mk status.HTTP_502_BAD_GATEWAY ("Gemini API Error: " +:+ str e)
  | ValidationError _ | OtherException _ =>
      HTTPException.mk status.HTTP_500_INTERNAL_SERVER_ERROR
        ("An unexpected error occurred in the chat processing flow: " +:+ str e)
  end.

(** The loop over the history runs before the [try]: what it raises is
    caught by no clause of the endpoint. *)
Definition chat_with_ai (session_id : string) (request : ChatRequest.t)
    : M raised ChatMessage.t :=
  match LLM_CLIENT with
  | None =>
      raise (Http (HTTPException.mk status.HTTP_500_INTERNAL_SERVER_ERROR
                     "AI Service is not initialized."))
  | Some client =>
      match gemini_contents (ChatRequest.history request) with
      | inl e => raise (Uncaught e)
      | inr contents =>
          try_except
            (gemini_response <-
               Client.generate_content client (first_query request contents) ;;
             response_text <-
               match GenerateContentResponse.function_calls gemini_response with
               | Some (first_call :: _) =>
                   if bool_decide
                        (FunctionCall.name first_call = Some "get_user_trade_summary")
                   then
                     tool_output <- get_user_trade_summary (ChatRequest.user_id request) ;;
                     tool_response <-
                       Client.generate_content client (second_query contents tool_output) ;;
                     ret (GenerateContentResponse.text tool_response)
                   else ret (Some "ERROR: Unknown tool requested.")
               | Some [] | None => ret (GenerateContentResponse.text gemini_response)
               end ;;
             lift (ChatMessage.init string_type_report MessageRole.ASSISTANT response_text))
            (fun e => raise (Http (chat_with_ai_except e)))
      end
  end.

(** An endpoint that raises nothing but [HTTPException]s. *)
Definition http_only {A} (endpoint : M HTTPException.t A) : M raised A :=
  fun tr =>
    match endpoint tr with
    | (inl e, tr') => (inl (Http e), tr')
    | (inr a, tr') => (inr a, tr')
    end.

(** A route declared with [dependencies=[VerifyInternalAuth]]: FastAPI
    resolves the header first (it has no default, so a request without it
    is answered 422), runs the dependency, and only then the endpoint; an
    [HTTPException] becomes a response with its status and detail, and an
    exception that escapes the endpoint is answered by the server with a
    plain 500. *)
Definition protected_route {A} (endpoint : M raised A)
    (auth_header : option string) (tr : Trace) : HttpResponse.t A * Trace :=
  match auth_header with
  | None =>
      (HttpResponse.mk status.HTTP_422_UNPROCESSABLE_ENTITY
         (MissingHeaderBody "X-Microservice-Auth"), tr)
  | Some auth_key =>
      match verify_internal_auth auth_key with
      | inl e =>
          (HttpResponse.mk (HTTPException.status_code e)
             (DetailBody (HTTPException.detail e)), tr)
      | inr _ =>
          match endpoint tr with
          | (inl (Http e), tr') =>
              (HttpResponse.mk (HTTPException.status_code e)
                 (DetailBody (HTTPException.detail e)), tr')
          | (inl (Uncaught _), tr') =>
              (HttpResponse.mk status.HTTP_500_INTERNAL_SERVER_ERROR
                 (PlainTextBody "Internal Server Error"), tr')
          | (inr a, tr') => (HttpResponse.mk status.HTTP_200_OK (ModelBody a), tr')
          end
      end
  end.

(** [POST /tag-trade] *)
Definition post_tag_trade (auth_header : option string) (request : TaggingRequest.t)
    : Trace -> HttpResponse.t TaggingResponse.t * Trace :=
  protected_route (http_only (tag_trade request)) auth_header.

(** [POST /chat/{session_id}] *)
Definition post_chat (auth_header : option string) (session_id : string)
    (request : ChatRequest.t) : Trace -> HttpResponse.t ChatMessage.t * Trace :=
  protected_route (chat_with_ai session_id request) auth_header.

End Service.

(** ** Fixtures: a scripted provider and the requests of the examples *)

(** A provider that plays back [answers], one per request received, and
    raises once the script is over. *)
Definition scripted (answers : list (pyexn + GenerateContentResponse.t)) : Client.t :=
  Client.mk (fun tr _ =>
    nth (gateway_calls tr) answers (inl (OtherException "no answer scripted"))).

Definition text_answer (t : string) : pyexn + GenerateContentResponse.t :=
  inr (GenerateContentResponse.mk (Some t) None).

Definition tool_answer (name : string) (uid : string)
    : pyexn + GenerateContentResponse.t :=
  inr (GenerateContentResponse.mk None
         (Some [FunctionCall.mk (Some name) (Some {[ "user_id" := JString uid ]})])).

Definition demo_settings : Settings.t :=
  Settings.mk 8001 "test-api-key" "gemini-2.5-flash" "http://localhost:8000" "s3cret".

(** [str.upper] on ASCII text, for the plans of the examples ('pro',
    'free'): bytes outside a-z are left as they are. *)
Definition ascii_upper_char (c : ascii) : ascii :=
  let n := nat_of_ascii c in
  if ((97 <=? n) && (n <=? 122))%nat then ascii_of_nat (n - 32) else c.

Fixpoint ascii_upper (s : string) : string :=
  match s with
  | EmptyString => EmptyString
  | String c s' => String (ascii_upper_char c) (ascii_upper s')
  end.

(** A stand-in for the text of pydantic's report in the examples. *)
Definition demo_report : string := "Input should be a valid string".

Definition user_says (text : string) : ChatMessage.t :=
  ChatMessage.mk MessageRole.USER text None None.

(** history = [user: What's my win rate?], user_id = u1: the scenario of the
    specification. *)
Definition win_rate_request : ChatRequest.t :=
  ChatRequest.mk "u1" "pro" [user_says "What's my win rate?"]
    (user_says "And my best strategy?").

(** First completion: the registered tool; second: the final text. *)
Definition win_rate_client : Client.t :=
  scripted [tool_answer "get_user_trade_summary" "u1";
            text_answer "Your win rate is 70%."].

(** The model asks for the data of another user than the caller's. *)
Definition other_user_client : Client.t :=
  scripted [tool_answer "get_user_trade_summary" "u2";
            text_answer "Your win rate is 70%."].

(** The model asks for a tool that was never declared. *)
Definition unknown_tool_client : Client.t :=
  scripted [tool_answer "delete_all_trades" "u1"].

Definition plain_text_client : Client.t :=
  scripted [text_answer "Hello, how can I help?"].

(** A first question, with nothing said before it. *)
Definition first_question_request : ChatRequest.t :=
  ChatRequest.mk "u1" "free" [] (user_says "What is my win rate?").

(** A stand-in for pydantic in the examples: it knows the texts of a table
    and refuses every other one, an absent text included. *)
Definition validator_of_table (valid : list (string * list string))
    (text : option string) : string + TaggingResponse.t :=
  match text with
  | None => inl "JSON input should be string, bytes or bytearray"
  | Some s =>
      match list_find (fun entry => entry.1 = s) valid with
      | Some (_, (_, tags)) => inr (TaggingResponse.mk tags)
      | None => inl "Invalid JSON"
      end
  end.

Definition prose_client : Client.t := scripted [text_answer "Sure! Here are some tags"].

Definition fear_request : TaggingRequest.t :=
  TaggingRequest.mk "Sold too early out of fear".

(** A [genai.Client] constructor that raises, as with missing credentials. *)
Definition failing_constructor (api_key : string) : pyexn + Client.t :=
  inl (OtherException "Missing key inputs argument!").

(** The provider refuses the request. *)
Definition rate_limited_client : Client.t :=
  scripted [inl (APIError "429 RESOURCE_EXHAUSTED")].

(** The provider asks for the tool, then refuses the second request. *)
Definition tool_then_error_client : Client.t :=
  scripted [tool_answer "get_user_trade_summary" "u1";
            inl (APIError "503 UNAVAILABLE")].

(** A completion with no text part and no function call. *)
Definition empty_completion_client : Client.t :=
  scripted [inr (GenerateContentResponse.mk None None)].

(** The JSON text of a response with the single tag FOMO. *)
Definition DQ : string := String (ascii_of_nat 34) EmptyString.

Definition fomo_json : string :=
  "{" +:+ DQ +:+ "tags" +:+ DQ +:+ ": [" +:+ DQ +:+ "FOMO" +:+ DQ +:+ "]}".

Definition fomo_client : Client.t := scripted [text_answer fomo_json].

(** ** Properties of the trace counters and of the message loop *)

Lemma gateway_calls_app (tr1 tr2 : Trace) :
  gateway_calls (tr1 ++ tr2) = gateway_calls tr1 + gateway_calls tr2.
Proof. unfold gateway_calls. now rewrite List.filter_app, length_app. Qed.

Lemma tool_calls_app (tr1 tr2 : Trace) :
  tool_calls (tr1 ++ tr2) = tool_calls tr1 + tool_calls tr2.
Proof. unfold tool_calls. now rewrite List.filter_app, length_app. Qed.

Lemma tool_arguments_app (tr1 tr2 : Trace) :
  tool_arguments (tr1 ++ tr2) = tool_arguments tr1 ++ tool_arguments tr2.
Proof. unfold tool_arguments. apply omap_app. Qed.

(** Building the provider message of any history message raises. *)
Lemma gemini_content_raises (msg : ChatMessage.t) :
  gemini_content msg = inl Part.TypeError.
Proof. reflexivity. Qed.

(** Once the loop has raised, the rest of the history is not looked at. *)
Lemma gemini_contents_raised (history : list ChatMessage.t) (e : pyexn) :
  fold_left
    (fun acc msg =>
       match acc with
       | inl e => inl e
       | inr contents =>
           match gemini_content msg with
           | inl e => inl e
           | inr c => inr (contents ++ [c])
           end
       end)
    history (inl e)
  = inl e.
Proof. induction history as [|msg history IH]; [reflexivity | exact IH]. Qed.

Lemma gemini_contents_nonempty (history : list ChatMessage.t) :
  history <> [] -> gemini_contents history = inl Part.TypeError.
Proof.
  destruct history as [|msg history]; [contradiction|]. intros _.
  unfold gemini_contents. cbn [fold_left].
  rewrite gemini_content_raises. apply gemini_contents_raised.
Qed.

(** ** The runs of the endpoints, flattened *)

(** The chat endpoint with a client: it escapes with the [TypeError] of
    the loop on a history that has a message, and on an empty history ends
    in one of five ways. *)
Lemma chat_with_ai_run
    (settings : Settings.t) (str_upper : string -> string) (report : string)
    (client : Client.t) (session_id : string) (request : ChatRequest.t) (tr : Trace) :
  chat_with_ai settings str_upper report (Some client) session_id request tr
  = match ChatRequest.history request with
    | _ :: _ => (inl (Uncaught Part.TypeError), tr)
    | [] =>
        let q1 := first_query settings str_upper request [] in
        let tr1 := tr ++ [GenerateContent q1] in
        let tr2 :=
          tr1 ++ [ToolInvocation "get_user_trade_summary" (ChatRequest.user_id request)] in
        let q2 := second_query settings [] (trade_summary (ChatRequest.user_id request)) in
        let finish (response_text : option string) :=
          match ChatMessage.init report MessageRole.ASSISTANT response_text with
          | inl e => inl (Http (chat_with_ai_except e))
          | inr msg => inr msg
          end in
        match Client.respond client tr q1 with
        | inl e => (inl (Http (chat_with_ai_except e)), tr1)
        | inr r1 =>
            match GenerateContentResponse.function_calls r1 with
            | Some (fc :: _) =>
                if bool_decide (FunctionCall.name fc = Some "get_user_trade_summary") then
                  (match Client.respond client tr2 q2 with
                   | inl e => inl (Http (chat_with_ai_except e))
                   | inr r2 => finish (GenerateContentResponse.text r2)
                   end, tr2 ++ [GenerateContent q2])
                else (finish (Some "ERROR: Unknown tool requested."), tr1)
            | Some [] | None => (finish (GenerateContentResponse.text r1), tr1)
            end
        end
    end.
Proof.
  unfold chat_with_ai.
  destruct (ChatRequest.history request) as [|msg history] eqn:Hhistory.
  - cbn [gemini_contents fold_left].
    unfold try_except, bind, Client.generate_content.
    destruct (Client.respond client tr _) as [e|r1]; [reflexivity|].
    destruct (GenerateContentResponse.function_calls r1) as [[|fc rest]|].
    + unfold ret, lift. now destruct (ChatMessage.init _ _ _).
    + case_bool_decide; [|reflexivity].
      unfold get_user_trade_summary, bind, emit, ret, lift.
      destruct (Client.respond client _ _) as [e|r2]; [reflexivity|].
      now destruct (ChatMessage.init _ _ _).
    + unfold ret, lift. now destruct (ChatMessage.init _ _ _).
  - now rewrite gemini_contents_nonempty.
Qed.

(** The tagging endpoint with a client. *)
Lemma tag_trade_run
    (settings : Settings.t) (model_validate_json : option string -> string + TaggingResponse.t)
    (client : Client.t) (request : TaggingRequest.t) (tr : Trace) :
  tag_trade settings model_validate_json (Some client) request tr
  = (match Client.respond client tr (tagging_call settings request) with
     | inl e => inl (tag_trade_except e)
     | inr response =>
         match model_validate_json (GenerateContentResponse.text response) with
         | inr parsed => inr parsed
         | inl message => inl (tag_trade_except (ValidationError message))
         end
     end, tr ++ [GenerateContent (tagging_call settings request)]).
Proof.
  unfold tag_trade, try_except, bind, Client.generate_content.
  destruct (Client.respond client tr _) as [e|response]; [reflexivity|].
  now destruct (model_validate_json _).
Qed.

(** Splits a goal about a run of [chat_with_ai] with a client into the
    five ways the run ends on an empty history, and the escape on any
    other. *)
Ltac chat_cases client tr request :=
  rewrite chat_with_ai_run; cbv zeta;
  let e := fresh "e" in
  let r1 := fresh "r1" in
  let r2 := fresh "r2" in
  let fc := fresh "fc" in
  let rest := fresh "rest" in
  let msg := fresh "msg" in
  let history := fresh "history" in
  let H1 := fresh "Hfirst" in
  let H2 := fresh "Hsecond" in
  let Hfc := fresh "Hcalls" in
  let Hname := fresh "Hname" in
  let Hhistory := fresh "Hhistory" in
  destruct (ChatRequest.history request) as [|msg history] eqn:Hhistory;
  [ destruct (Client.respond client tr _) as [e|r1] eqn:H1;
    [ | destruct (GenerateContentResponse.function_calls r1) as [[|fc rest]|] eqn:Hfc;
        [ | case_bool_decide as Hname;
            [ match goal with
              | |- context [Client.respond client ?t ?q] =>
                  destruct (Client.respond client t q) as [e|r2] eqn:H2
              end | ] | ] ]
  | ].

(** ** The chat endpoint, once the first completion is in *)

Section ChatProperties.

Variable settings : Settings.t.
Variable str_upper : string -> string.
Variable report : string.
Variable client : Client.t.
Variable session_id : string.
Variable request : ChatRequest.t.
Variable tr : Trace.

(** The first request as it goes out when the loop has built nothing, the
    request that carries the tool's output, and the trace once the tool has
    run. *)
Let q1 : GenerateContentCall.t := first_query settings str_upper request [].
Let q2 : GenerateContentCall.t :=
  second_query settings [] (trade_summary (ChatRequest.user_id request)).
Let tr2 : Trace :=
  tr ++ [GenerateContent q1;
         ToolInvocation "get_user_trade_summary" (ChatRequest.user_id request)].

(** The run on a history that holds a message. *)
Lemma chat_nonempty_history_escapes :
  ChatRequest.history request <> [] ->
  chat_with_ai settings str_upper report (Some client) session_id request tr
  = (inl (Uncaught Part.TypeError), tr).
Proof.
  intros Hhistory. rewrite chat_with_ai_run.
  destruct (ChatRequest.history request); [contradiction | reflexivity].
Qed.

(** The branch taken, on an empty history, when the first completion asks
    for the registered tool. *)
Lemma chat_tool_branch
    (r1 : GenerateContentResponse.t) (fc : FunctionCall.t) (rest : list FunctionCall.t) :
  ChatRequest.history request = [] ->
  Client.respond client tr q1 = inr r1 ->
  GenerateContentResponse.function_calls r1 = Some (fc :: rest) ->
  FunctionCall.name fc = Some "get_user_trade_summary" ->
  chat_with_ai settings str_upper report (Some client) session_id request tr
  = (match Client.respond client tr2 q2 with
     | inl e => inl (Http (chat_with_ai_except e))
     | inr r2 =>
         match GenerateContentResponse.text r2 with
         | Some t => inr (ChatMessage.mk MessageRole.ASSISTANT t None None)
         | None => inl (Http (chat_with_ai_except (ValidationError report)))
         end
     end, tr2 ++ [GenerateContent q2]).
Proof.
  intros Hhistory H1 Hcalls Hname. unfold tr2, q2, q1 in *.
  rewrite chat_with_ai_run, Hhistory. cbv zeta.
  rewrite H1, Hcalls. rewrite bool_decide_eq_true_2 by exact Hname.
  rewrite <- app_assoc. cbn [app].
  match goal with
  | |- context [Client.respond client ?t ?q] =>
      destruct (Client.respond client t q) as [e|r2]
  end; [reflexivity|].
  now destruct (GenerateContentResponse.text r2).
Qed.

(** The branch taken, on an empty history, when the first completion asks
    for any other tool. *)
Lemma chat_unknown_tool_branch
    (r1 : GenerateContentResponse.t) (fc : FunctionCall.t) (rest : list FunctionCall.t) :
  ChatRequest.history request = [] ->
  Client.respond client tr q1 = inr r1 ->
  GenerateContentResponse.function_calls r1 = Some (fc :: rest) ->
  FunctionCall.name fc <> Some "get_user_trade_summary" ->
  chat_with_ai settings str_upper report (Some client) session_id request tr
  = (inr (ChatMessage.mk MessageRole.ASSISTANT "ERROR: Unknown tool requested." None None),
     tr ++ [GenerateContent q1]).
Proof.
  intros Hhistory H1 Hcalls Hname. unfold q1 in *.
  rewrite chat_with_ai_run, Hhistory. cbv zeta.
  rewrite H1, Hcalls. rewrite bool_decide_eq_false_2 by exact Hname.
  reflexivity.
Qed.

(** The branch taken, on an empty history, when [function_calls] is [None]
    or empty. *)
Lemma chat_text_branch (r1 : GenerateContentResponse.t) :
  ChatRequest.history request = [] ->
  Client.respond client tr q1 = inr r1 ->
  GenerateContentResponse.function_calls r1 = None
  \/ GenerateContentResponse.function_calls r1 = Some [] ->
  chat_with_ai settings str_upper report (Some client) session_id request tr
  = (match GenerateContentResponse.text r1 with
     | Some t => inr (ChatMessage.mk MessageRole.ASSISTANT t None None)
     | None => inl (Http (chat_with_ai_except (ValidationError report)))
     end, tr ++ [GenerateContent q1]).
Proof.
  intros Hhistory H1 Hcalls. unfold q1 in *.
  rewrite chat_with_ai_run, Hhistory. cbv zeta. rewrite H1.
  destruct Hcalls as [-> | ->]; now destruct (GenerateContentResponse.text r1).
Qed.

(** C1.  When the provider's first completion asks for the registered tool
    [get_user_trade_summary], what the endpoint does depends on the
    history.  On an empty history it adds exactly three events to the
    trace, the first request, one invocation of the tool and the second
    request, and a message is returned exactly when the second completion
    comes back with a text, which is its content.  On a history that holds
    a message it raises the [TypeError] of the loop before anything else:
    no request goes out, the tool is not invoked and no message is
    returned. *)
Theorem chat_registered_tool_round_trip
    (r1 : GenerateContentResponse.t) (fc : FunctionCall.t) (rest : list FunctionCall.t) :
  Client.respond client tr q1 = inr r1 ->
  GenerateContentResponse.function_calls r1 = Some (fc :: rest) ->
  FunctionCall.name fc = Some "get_user_trade_summary" ->
  let out := chat_with_ai settings str_upper report (Some client) session_id request tr in
  (ChatRequest.history request = [] ->
   out.2 = tr ++ [GenerateContent q1;
                  ToolInvocation "get_user_trade_summary" (ChatRequest.user_id request);
                  GenerateContent q2] /\
   tool_calls out.2 = tool_calls tr + 1 /\
   gateway_calls out.2 = gateway_calls tr + 2 /\
   forall msg : ChatMessage.t,
     out.1 = inr msg <->
     exists (r2 : GenerateContentResponse.t) (t : string),
       Client.respond client tr2 q2 = inr r2 /\
       GenerateContentResponse.text r2 = Some t /\
       msg = ChatMessage.mk MessageRole.ASSISTANT t None None) /\
  (ChatRequest.history request <> [] ->
   out = (inl (Uncaught Part.TypeError), tr) /\
   tool_calls out.2 = tool_calls tr /\
   gateway_calls out.2 = gateway_calls tr).
Proof.
  intros H1 Hcalls Hname out. subst out. split; intros Hhistory.
  - rewrite (chat_tool_branch r1 fc rest Hhistory H1 Hcalls Hname).
    cbn [fst snd]. unfold tr2, q2, q1.
    repeat split.
    + now rewrite <- app_assoc.
    + rewrite !tool_calls_app. cbn. lia.
    + rewrite !gateway_calls_app. cbn. lia.
    + match goal with
      | |- context [Client.respond client ?t ?q] =>
          destruct (Client.respond client t q) as [e|r2]
      end; [discriminate|].
      destruct (GenerateContentResponse.text r2) as [t|] eqn:Ht; [|discriminate].
      intros [= <-]. exists r2, t. auto.
    + intros (r2 & t & -> & -> & ->). reflexivity.
  - rewrite (chat_nonempty_history_escapes Hhistory). repeat split.
Qed.

(** C2, as the code has it.  When the first completion asks for the
    registered tool, the tool is invoked at most once and only ever on the
    [user_id] of the ChatRequest, whatever arguments the completion
    carries; on an empty history it is invoked, once. *)
Theorem chat_tool_invoked_with_request_user_id
    (r1 : GenerateContentResponse.t) (fc : FunctionCall.t) (rest : list FunctionCall.t) :
  Client.respond client tr q1 = inr r1 ->
  GenerateContentResponse.function_calls r1 = Some (fc :: rest) ->
  FunctionCall.name fc = Some "get_user_trade_summary" ->
  let out := chat_with_ai settings str_upper report (Some client) session_id request tr in
  (tool_arguments out.2 = tool_arguments tr
   \/ tool_arguments out.2 = tool_arguments tr ++ [ChatRequest.user_id request]) /\
  (ChatRequest.history request = [] ->
   tool_arguments out.2 = tool_arguments tr ++ [ChatRequest.user_id request]).
Proof.
  intros H1 Hcalls Hname out. subst out.
  assert (Hempty : ChatRequest.history request = [] ->
    tool_arguments
      (chat_with_ai settings str_upper report (Some client) session_id request tr).2
    = tool_arguments tr ++ [ChatRequest.user_id request]).
  { intros Hhistory.
    rewrite (chat_tool_branch r1 fc rest Hhistory H1 Hcalls Hname).
    cbn [snd]. unfold tr2, q2, q1. rewrite !tool_arguments_app. cbn.
    now rewrite app_nil_r. }
  split; [|exact Hempty].
  destruct (ChatRequest.history request) as [|msg history] eqn:Hhistory.
  - right. now apply Hempty.
  - left. rewrite chat_nonempty_history_escapes; [reflexivity|].
    rewrite Hhistory. discriminate.
Qed.

(** C4.  When the first completion asks for a tool whose name is not the
    registered one: on an empty history the endpoint returns the assistant
    message with the literal fallback text, the only event it adds is the
    first request, and the route answers 200 with that message; on a
    history that holds a message it raises the [TypeError] of the loop, no
    request goes out, and the route answers a plain 500. *)
Theorem chat_unknown_tool_fallback
    (r1 : GenerateContentResponse.t) (fc : FunctionCall.t) (rest : list FunctionCall.t) :
  Client.respond client tr q1 = inr r1 ->
  GenerateContentResponse.function_calls r1 = Some (fc :: rest) ->
  FunctionCall.name fc <> Some "get_user_trade_summary" ->
  let out := chat_with_ai settings str_upper report (Some client) session_id request tr in
  let route :=
    post_chat settings str_upper report (Some client)
      (Some (Settings.AI_SERVICE_SECRET_KEY settings)) session_id request tr in
  let fallback :=
    ChatMessage.mk MessageRole.ASSISTANT "ERROR: Unknown tool requested." None None in
  (ChatRequest.history request = [] ->
   out.1 = inr fallback /\
   out.2 = tr ++ [GenerateContent q1] /\
   gateway_calls out.2 = gateway_calls tr + 1 /\
   tool_calls out.2 = tool_calls tr /\
   route.1 = HttpResponse.mk status.HTTP_200_OK (ModelBody fallback)) /\
  (ChatRequest.history request <> [] ->
   out = (inl (Uncaught Part.TypeError), tr) /\
   route = (HttpResponse.mk status.HTTP_500_INTERNAL_SERVER_ERROR
              (PlainTextBody "Internal Server Error"), tr)).
Proof.
  intros H1 Hcalls Hname out route fallback. subst out route.
  unfold post_chat, protected_route, verify_internal_auth.
  rewrite bool_decide_eq_false_2 by auto.
  split; intros Hhistory.
  - rewrite (chat_unknown_tool_branch r1 fc rest Hhistory H1 Hcalls Hname).
    cbn [fst snd]. rewrite gateway_calls_app, tool_calls_app. cbn.
    repeat split; lia.
  - rewrite (chat_nonempty_history_escapes Hhistory). split; reflexivity.
Qed.

(** C5.  When the first completion is a text and asks for no tool
    ([function_calls] is [None] or empty): on an empty history the
    endpoint returns the assistant message whose content is that text, and
    the only event it adds is the first request; on a history that holds a
    message it raises the [TypeError] of the loop, no request goes out and
    no message is returned. *)
Theorem chat_plain_text_verbatim (r1 : GenerateContentResponse.t) (t : string) :
  Client.respond client tr q1 = inr r1 ->
  GenerateContentResponse.function_calls r1 = None
  \/ GenerateContentResponse.function_calls r1 = Some [] ->
  GenerateContentResponse.text r1 = Some t ->
  let out := chat_with_ai settings str_upper report (Some client) session_id request tr in
  (ChatRequest.history request = [] ->
   out.1 = inr (ChatMessage.mk MessageRole.ASSISTANT t None None) /\
   out.2 = tr ++ [GenerateContent q1] /\
   tool_calls out.2 = tool_calls tr /\
   tool_arguments out.2 = tool_arguments tr) /\
  (ChatRequest.history request <> [] ->
   out = (inl (Uncaught Part.TypeError), tr)).
Proof.
  intros H1 Hcalls Ht out. subst out. split; intros Hhistory.
  - rewrite (chat_text_branch r1 Hhistory H1 Hcalls), Ht.
    cbn [fst snd]. rewrite tool_calls_app, tool_arguments_app. cbn.
    rewrite app_nil_r. repeat split; lia.
  - exact (chat_nonempty_history_escapes Hhistory).
Qed.

End ChatProperties.

(** ** What the first request carries *)

(** C3.  The endpoint never reads [new_message]: its whole run is the same
    whatever [new_message] is, and so is the first request.  On an empty
    history, where the first request does go out, the provider receives no
    message at all, and the latest message of the user is not among what it
    is sent. *)
Theorem chat_first_query_drops_new_message
    (settings : Settings.t) (str_upper : string -> string) (report : string)
    (LLM_CLIENT : option Client.t) (client : Client.t) (session_id : string)
    (user_id user_plan : string) (history : list ChatMessage.t)
    (new_message other_message : ChatMessage.t) (tr : Trace) :
  let request := ChatRequest.mk user_id user_plan history new_message in
  let request' := ChatRequest.mk user_id user_plan history other_message in
  let first_question := ChatRequest.mk user_id user_plan [] new_message in
  chat_with_ai settings str_upper report LLM_CLIENT session_id request tr
  = chat_with_ai settings str_upper report LLM_CLIENT session_id request' tr /\
  (exists rest : Trace,
     (chat_with_ai settings str_upper report (Some client) session_id first_question tr).2
     = tr ++ GenerateContent (first_query settings str_upper first_question []) :: rest) /\
  GenerateContentCall.contents (first_query settings str_upper first_question []) = [].
Proof.
  intros request request' first_question. split; [reflexivity|]. split; [|reflexivity].
  subst first_question.
  chat_cases client tr (ChatRequest.mk user_id user_plan [] new_message);
    cbn [snd]; try discriminate;
    first [ now exists [] | rewrite <- !app_assoc; cbn [app]; eauto ].
Qed.


(** C10.  The path parameter [session_id] is not read: two calls that
    differ in it alone give the same result and the same trace, at the
    endpoint and at the route. *)
Theorem chat_session_id_irrelevant
    (settings : Settings.t) (str_upper : string -> string) (report : string)
    (LLM_CLIENT : option Client.t) (auth_header : option string)
    (session_id session_id' : string) (request : ChatRequest.t) (tr : Trace) :
  chat_with_ai settings str_upper report LLM_CLIENT session_id request tr
  = chat_with_ai settings str_upper report LLM_CLIENT session_id' request tr /\
  post_chat settings str_upper report LLM_CLIENT auth_header session_id request tr
  = post_chat settings str_upper report LLM_CLIENT auth_header session_id' request tr.
Proof. split; reflexivity. Qed.

(** ** The tagging endpoint and the client handle *)

(** C7, as the code has it.  When the provider's answer does not validate
    against [TaggingResponse], the [ValidationError] falls to the second
    [except] clause: the endpoint raises the HTTP 500 of an unexpected
    error, after its single provider request, and returns no tags. *)
Theorem tagging_invalid_output_is_unexpected_error
    (settings : Settings.t) (model_validate_json : option string -> string + TaggingResponse.t)
    (client : Client.t) (request : TaggingRequest.t) (tr : Trace)
    (response : GenerateContentResponse.t) (message : string) :
  Client.respond client tr (tagging_call settings request) = inr response ->
  model_validate_json (GenerateContentResponse.text response) = inl message ->
  let unexpected :=
    HTTPException.mk status.HTTP_500_INTERNAL_SERVER_ERROR
      ("An unexpected error occurred: " +:+ message) in
  tag_trade settings model_validate_json (Some client) request tr
  = (inl unexpected, tr ++ [GenerateContent (tagging_call settings request)]) /\
  (post_tag_trade settings model_validate_json (Some client)
     (Some (Settings.AI_SERVICE_SECRET_KEY settings)) request tr).1
  = HttpResponse.mk status.HTTP_500_INTERNAL_SERVER_ERROR
      (DetailBody (HTTPException.detail unexpected)).
Proof.
  intros Hresponse Hinvalid unexpected.
  assert (Hrun : tag_trade settings model_validate_json (Some client) request tr
                 = (inl unexpected, tr ++ [GenerateContent (tagging_call settings request)])).
  { unfold tag_trade, try_except, bind, Client.generate_content.
    rewrite Hresponse, Hinvalid. reflexivity. }
  split; [exact Hrun|].
  unfold post_tag_trade, protected_route, verify_internal_auth, http_only.
  rewrite bool_decide_eq_false_2 by auto.
  now rewrite Hrun.
Qed.

(** C8.  When the constructor of the client raised at import, the handle
    is [None], and both endpoints raise the HTTP 500 "AI Service is not
    initialized." with the trace as it was: no provider request and no
    tool invocation is made. *)
Theorem uninitialized_client_is_service_unavailable
    (settings : Settings.t) (str_upper : string -> string) (report : string)
    (model_validate_json : option string -> string + TaggingResponse.t)
    (genai_Client : string -> pyexn + Client.t) (e : pyexn)
    (tagging_request : TaggingRequest.t) (session_id : string)
    (chat_request : ChatRequest.t) (tr : Trace) :
  genai_Client (Settings.GEMINI_API_KEY settings) = inl e ->
  let LLM_CLIENT := LLM_CLIENT_init genai_Client settings in
  let unavailable :=
    HTTPException.mk status.HTTP_500_INTERNAL_SERVER_ERROR "AI Service is not initialized." in
  LLM_CLIENT = None /\
  tag_trade settings model_validate_json LLM_CLIENT tagging_request tr
  = (inl unavailable, tr) /\
  chat_with_ai settings str_upper report LLM_CLIENT session_id chat_request tr
  = (inl (Http unavailable), tr).
Proof.
  intros Hinit LLM_CLIENT unavailable.
  assert (Hnone : LLM_CLIENT = None).
  { subst LLM_CLIENT. unfold LLM_CLIENT_init. now rewrite Hinit. }
  rewrite Hnone. repeat split.
Qed.

(** ** The shared-secret check *)

Lemma verify_internal_auth_mismatch (settings : Settings.t) (auth_key : string) :
  auth_key <> Settings.AI_SERVICE_SECRET_KEY settings ->
  verify_internal_auth settings auth_key
  = inl (HTTPException.mk status.HTTP_401_UNAUTHORIZED
           "Invalid microservice authentication key.").
Proof.
  intros Hne. unfold verify_internal_auth.
  now rewrite bool_decide_eq_true_2.
Qed.

(** A route does not run its endpoint unless the header is the secret. *)
Lemma protected_route_rejects {A : Type} (settings : Settings.t)
    (endpoint : M raised A) (auth_header : option string) (tr : Trace) :
  auth_header <> Some (Settings.AI_SERVICE_SECRET_KEY settings) ->
  protected_route settings endpoint auth_header tr
  = (match auth_header with
     | None =>
         HttpResponse.mk status.HTTP_422_UNPROCESSABLE_ENTITY
           (MissingHeaderBody "X-Microservice-Auth")
     | Some _ =>
         HttpResponse.mk status.HTTP_401_UNAUTHORIZED
           (DetailBody "Invalid microservice authentication key.")
     end, tr).
Proof.
  intros Hne. destruct auth_header as [auth_key|]; [|reflexivity].
  unfold protected_route.
  rewrite verify_internal_auth_mismatch by congruence.
  reflexivity.
Qed.

(** C9.  On both protected routes a request whose header is absent or is
    not the secret is answered without running the endpoint: the trace is
    as it was, so no provider request and no tool invocation happened.  A
    header that is present and wrong is answered 401 with a fixed detail;
    an absent one is answered 422 by the framework.  The answer is the
    same under every other configuration whose secret the header also
    misses, so it carries nothing of the expected value. *)
Theorem auth_rejected_before_any_call
    (settings : Settings.t) (str_upper : string -> string) (report : string)
    (model_validate_json : option string -> string + TaggingResponse.t)
    (LLM_CLIENT : option Client.t) (auth_header : option string)
    (tagging_request : TaggingRequest.t) (session_id : string)
    (chat_request : ChatRequest.t) (tr : Trace) :
  auth_header <> Some (Settings.AI_SERVICE_SECRET_KEY settings) ->
  let tag := post_tag_trade settings model_validate_json LLM_CLIENT auth_header
               tagging_request tr in
  let chat := post_chat settings str_upper report LLM_CLIENT auth_header session_id
                chat_request tr in
  tag.2 = tr /\ chat.2 = tr /\
  (forall auth_key : string,
     auth_header = Some auth_key ->
     tag.1 = HttpResponse.mk status.HTTP_401_UNAUTHORIZED
               (DetailBody "Invalid microservice authentication key.") /\
     chat.1 = HttpResponse.mk status.HTTP_401_UNAUTHORIZED
                (DetailBody "Invalid microservice authentication key.")) /\
  (auth_header = None ->
     tag.1 = HttpResponse.mk status.HTTP_422_UNPROCESSABLE_ENTITY
               (MissingHeaderBody "X-Microservice-Auth") /\
     chat.1 = HttpResponse.mk status.HTTP_422_UNPROCESSABLE_ENTITY
                (MissingHeaderBody "X-Microservice-Auth")) /\
  (forall settings' : Settings.t,
     auth_header <> Some (Settings.AI_SERVICE_SECRET_KEY settings') ->
     post_tag_trade settings' model_validate_json LLM_CLIENT auth_header
       tagging_request tr = tag /\
     post_chat settings' str_upper report LLM_CLIENT auth_header session_id
       chat_request tr = chat).
Proof.
  intros Hne tag chat.
  assert (Htag : tag = _) by exact (protected_route_rejects settings _ auth_header tr Hne).
  assert (Hchat : chat = _) by exact (protected_route_rejects settings _ auth_header tr Hne).
  rewrite Htag, Hchat. cbn [fst snd].
  split; [reflexivity|]. split; [reflexivity|].
  split; [intros auth_key ->; split; reflexivity|].
  split; [intros ->; split; reflexivity|].
  intros settings' Hne'. unfold post_tag_trade, post_chat.
  rewrite !protected_route_rejects by assumption.
  split; reflexivity.
Qed.

(** ** Failures of the provider, and the shape of the second request *)

(** X1.  On an empty history, a first request that raises ends the chat
    endpoint after that one request, with no tool invocation: an
    [APIError] becomes the HTTP 502 "Gemini API Error: ...", any other
    exception the HTTP 500 of the chat flow. *)
Theorem chat_first_query_error
    (settings : Settings.t) (str_upper : string -> string) (report : string)
    (client : Client.t) (session_id : string)
    (request : ChatRequest.t) (tr : Trace) (e : pyexn) :
  ChatRequest.history request = [] ->
  Client.respond client tr (first_query settings str_upper request []) = inl e ->
  chat_with_ai settings str_upper report (Some client) session_id request tr
  = (inl (Http (HTTPException.mk
                  (match e with
                   | APIError _ => status.HTTP_502_BAD_GATEWAY
                   | _ => status.HTTP_500_INTERNAL_SERVER_ERROR
                   end)
                  (match e with
                   | APIError _ => "Gemini API Error: "
                   | _ => "An unexpected error occurred in the chat processing flow: "
                   end +:+ str e))),
     tr ++ [GenerateContent (first_query settings str_upper request [])]).
Proof.
  intros Hhistory H1.
  rewrite chat_with_ai_run, Hhistory. cbv zeta.
  rewrite H1. now destruct e.
Qed.


(** X3.  On an empty history, when the second request raises, no answer is
    returned: an [APIError] becomes the HTTP 502, after the tool has run
    once and the provider has been called twice. *)
Theorem chat_second_query_api_error
    (settings : Settings.t) (str_upper : string -> string) (report : string)
    (client : Client.t) (session_id : string)
    (request : ChatRequest.t) (tr : Trace)
    (r1 : GenerateContentResponse.t) (fc : FunctionCall.t) (rest : list FunctionCall.t)
    (message : string) :
  ChatRequest.history request = [] ->
  Client.respond client tr (first_query settings str_upper request []) = inr r1 ->
  GenerateContentResponse.function_calls r1 = Some (fc :: rest) ->
  FunctionCall.name fc = Some "get_user_trade_summary" ->
  Client.respond client
    (tr ++ [GenerateContent (first_query settings str_upper request []);
            ToolInvocation "get_user_trade_summary" (ChatRequest.user_id request)])
    (second_query settings [] (trade_summary (ChatRequest.user_id request)))
  = inl (APIError message) ->
  chat_with_ai settings str_upper report (Some client) session_id request tr
  = (inl (Http (HTTPException.mk status.HTTP_502_BAD_GATEWAY
                  ("Gemini API Error: " +:+ message))),
     tr ++ [GenerateContent (first_query settings str_upper request []);
            ToolInvocation "get_user_trade_summary" (ChatRequest.user_id request);
            GenerateContent
              (second_query settings [] (trade_summary (ChatRequest.user_id request)))]).
Proof.
  intros Hhistory H1 Hcalls Hname H2.
  rewrite (chat_tool_branch settings str_upper report client session_id request tr
             r1 fc rest Hhistory H1 Hcalls Hname).
  rewrite H2, <- app_assoc. reflexivity.
Qed.

(** X4.  On an empty history, a first completion with neither a tool call
    nor a text has no content for the assistant message: building it
    fails, and the endpoint raises the HTTP 500 of the chat flow with
    pydantic's report as its detail. *)
Theorem chat_empty_completion_is_unexpected_error
    (settings : Settings.t) (str_upper : string -> string) (report : string)
    (client : Client.t) (session_id : string)
    (request : ChatRequest.t) (tr : Trace) (r1 : GenerateContentResponse.t) :
  ChatRequest.history request = [] ->
  Client.respond client tr (first_query settings str_upper request []) = inr r1 ->
  GenerateContentResponse.function_calls r1 = None ->
  GenerateContentResponse.text r1 = None ->
  (chat_with_ai settings str_upper report (Some client) session_id request tr).1
  = inl (Http (HTTPException.mk status.HTTP_500_INTERNAL_SERVER_ERROR
                 ("An unexpected error occurred in the chat processing flow: "
                  +:+ report))).
Proof.
  intros Hhistory H1 Hcalls Htext.
  rewrite (chat_text_branch settings str_upper report client session_id request tr r1
             Hhistory H1 (or_introl Hcalls)).
  now rewrite Htext.
Qed.

(** X5.  The tagging endpoint sends one request, whose only content is the
    prompt that embeds the notes and whose config asks for JSON of the
    [TaggingResponse] schema; when the answer validates, the parsed tags
    are returned as they are. *)
Theorem tagging_valid_output_returned
    (settings : Settings.t) (model_validate_json : option string -> string + TaggingResponse.t)
    (client : Client.t) (request : TaggingRequest.t) (tr : Trace)
    (response : GenerateContentResponse.t) (parsed : TaggingResponse.t) :
  Client.respond client tr (tagging_call settings request) = inr response ->
  model_validate_json (GenerateContentResponse.text response) = inr parsed ->
  tag_trade settings model_validate_json (Some client) request tr
  = (inr parsed, tr ++ [GenerateContent (tagging_call settings request)]) /\
  GenerateContentCall.contents (tagging_call settings request)
  = [PromptText (tagging_prompt request)].
Proof.
  intros Hresponse Hvalid.
  unfold tag_trade, try_except, bind, Client.generate_content.
  rewrite Hresponse, Hvalid. split; reflexivity.
Qed.

(** X6.  When the provider raises an [APIError] on the tagging request,
    the endpoint raises the HTTP 502 "Gemini API Error during tagging: ...". *)
Theorem tagging_api_error_is_bad_gateway
    (settings : Settings.t) (model_validate_json : option string -> string + TaggingResponse.t)
    (client : Client.t) (request : TaggingRequest.t) (tr : Trace) (message : string) :
  Client.respond client tr (tagging_call settings request) = inl (APIError message) ->
  tag_trade settings model_validate_json (Some client) request tr
  = (inl (HTTPException.mk status.HTTP_502_BAD_GATEWAY
            ("Gemini API Error during tagging: " +:+ message)),
     tr ++ [GenerateContent (tagging_call settings request)]).
Proof.
  intros Hresponse.
  unfold tag_trade, try_except, bind, Client.generate_content.
  now rewrite Hresponse.
Qed.

(** ** Every run of the endpoints *)

(** X7.  Whatever the provider answers, the chat endpoint only appends to
    the trace, makes at most two provider requests and at most one tool
    invocation; the second request goes out exactly when the tool has run,
    and the tool runs on the request's [user_id].  Nothing is appended
    without a client or on a history that holds a message; with a client
    and an empty history at least one request goes out. *)
Theorem chat_call_bounds
    (settings : Settings.t) (str_upper : string -> string) (report : string)
    (LLM_CLIENT : option Client.t) (session_id : string)
    (request : ChatRequest.t) (tr : Trace) :
  exists new : Trace,
    (chat_with_ai settings str_upper report LLM_CLIENT session_id request tr).2
    = tr ++ new /\
    gateway_calls new <= 2 /\
    tool_calls new <= 1 /\
    (gateway_calls new = 2 <-> tool_calls new = 1) /\
    (tool_calls new = 1 -> tool_arguments new = [ChatRequest.user_id request]) /\
    (LLM_CLIENT = None -> new = []) /\
    (ChatRequest.history request <> [] -> new = []) /\
    (is_Some LLM_CLIENT -> ChatRequest.history request = [] -> 1 <= gateway_calls new).
Proof.
  assert (Hside : forall new : Trace,
    (gateway_calls new = 0 /\ tool_calls new = 0 /\
     (LLM_CLIENT = None \/ ChatRequest.history request <> []) /\ new = [])
    \/ (gateway_calls new = 1 /\ tool_calls new = 0 /\
        is_Some LLM_CLIENT /\ ChatRequest.history request = [])
    \/ (gateway_calls new = 2 /\ tool_calls new = 1 /\
        tool_arguments new = [ChatRequest.user_id request] /\
        is_Some LLM_CLIENT /\ ChatRequest.history request = []) ->
    gateway_calls new <= 2 /\
    tool_calls new <= 1 /\
    (gateway_calls new = 2 <-> tool_calls new = 1) /\
    (tool_calls new = 1 -> tool_arguments new = [ChatRequest.user_id request]) /\
    (LLM_CLIENT = None -> new = []) /\
    (ChatRequest.history request <> [] -> new = []) /\
    (is_Some LLM_CLIENT -> ChatRequest.history request = [] -> 1 <= gateway_calls new)).
  { intros new [(Hg & Ht & Hwhy & ->) | [(Hg & Ht & Hc & Hh) | (Hg & Ht & Ha & Hc & Hh)]].
    - repeat split; cbn; try lia; try discriminate.
      intros Hc Hh. destruct Hwhy as [-> | Hne]; [destruct Hc; discriminate | contradiction].
    - repeat split; try lia; try contradiction.
      intros ->. destruct Hc; discriminate.
    - repeat split; try lia; try contradiction; try (intros; assumption).
      intros ->. destruct Hc; discriminate. }
  destruct LLM_CLIENT as [client|].
  - rewrite chat_with_ai_run. cbv zeta.
    destruct (ChatRequest.history request) as [|m history] eqn:Hhistory.
    + destruct (Client.respond client tr _) as [e|r1].
      { eexists. split; [reflexivity|]. apply Hside. right. left. cbn. eauto. }
      destruct (GenerateContentResponse.function_calls r1) as [[|fc rest]|].
      * eexists. split; [reflexivity|]. apply Hside. right. left. cbn. eauto.
      * case_bool_decide.
        -- eexists. split; [cbn [snd]; rewrite <- !app_assoc; reflexivity|].
           apply Hside. right. right. cbn. eauto 10.
        -- eexists. split; [reflexivity|]. apply Hside. right. left. cbn. eauto.
      * eexists. split; [reflexivity|]. apply Hside. right. left. cbn. eauto.
    + exists []. split; [cbn; now rewrite app_nil_r|].
      apply Hside. left. repeat split. right. discriminate.
  - exists []. split; [cbn; now rewrite app_nil_r|].
    apply Hside. left. repeat split. now left.
Qed.

(** X8.  The chat endpoint ends in one of three ways.  It returns a
    message whose role is "assistant" and whose tool fields are empty,
    which happens only with a client and on an empty history; or it raises
    an [HTTPException] whose status is 500 or 502; or, with a client and a
    history that holds a message, it lets the [TypeError] of the loop
    escape, with the trace as it was. *)
Theorem chat_outcome_invariant
    (settings : Settings.t) (str_upper : string -> string) (report : string)
    (LLM_CLIENT : option Client.t) (session_id : string)
    (request : ChatRequest.t) (tr : Trace) :
  match chat_with_ai settings str_upper report LLM_CLIENT session_id request tr with
  | (inr msg, _) =>
      ChatMessage.role msg = "assistant" /\
      ChatMessage.tool_calls msg = None /\
      ChatMessage.tool_call_id msg = None /\
      is_Some LLM_CLIENT /\
      ChatRequest.history request = []
  | (inl (Http e), _) =>
      HTTPException.status_code e = 500%Z \/ HTTPException.status_code e = 502%Z
  | (inl (Uncaught e), tr') =>
      e = Part.TypeError /\ tr' = tr /\
      is_Some LLM_CLIENT /\
      ChatRequest.history request <> []
  end.
Proof.
  destruct LLM_CLIENT as [client|]; [|left; reflexivity].
  chat_cases client tr request;
    repeat match goal with
           | |- context [chat_with_ai_except ?e] => destruct e; cbn
           | |- context [ChatMessage.init _ _ ?t] => destruct t; cbn
           end;
    first [ left; reflexivity | right; reflexivity
          | repeat split; eauto; discriminate ].
Qed.

(** X9.  The chat endpoint raises 502 only for an [APIError] of the
    provider, at the first request or, after the tool has run, at the
    second, and only on an empty history; the detail is "Gemini API
    Error: " followed by the error. *)
Theorem chat_bad_gateway_only_on_api_error
    (settings : Settings.t) (str_upper : string -> string) (report : string)
    (LLM_CLIENT : option Client.t) (session_id : string)
    (request : ChatRequest.t) (tr : Trace) (e : HTTPException.t) :
  (chat_with_ai settings str_upper report LLM_CLIENT session_id request tr).1
  = inl (Http e) ->
  HTTPException.status_code e = status.HTTP_502_BAD_GATEWAY ->
  exists (client : Client.t) (message : string),
    LLM_CLIENT = Some client /\
    ChatRequest.history request = [] /\
    HTTPException.detail e = "Gemini API Error: " +:+ message /\
    (Client.respond client tr (first_query settings str_upper request [])
     = inl (APIError message)
     \/ Client.respond client
          (tr ++ [GenerateContent (first_query settings str_upper request []);
                  ToolInvocation "get_user_trade_summary" (ChatRequest.user_id request)])
          (second_query settings [] (trade_summary (ChatRequest.user_id request)))
        = inl (APIError message)).
Proof.
  destruct LLM_CLIENT as [client|]; [|intros [= <-]; discriminate].
  intros Hout Hstatus. exists client. revert Hout.
  chat_cases client tr request; cbn [fst ChatMessage.init];
    repeat match goal with
           | |- context [ChatMessage.init _ _ ?t] => destruct t; cbn
           end;
    try discriminate;
    intros [= <-];
    try discriminate;
    match goal with
    | H : HTTPException.status_code (chat_with_ai_except ?x) = _ |- _ =>
        destruct x as [message| |]; try discriminate; exists message
    end.
  - auto.
  - rewrite <- app_assoc in Hsecond. auto.
Qed.

(** X10.  A message is returned in exactly three situations, all on an
    empty history, and its content is fixed by the provider's completions
    of this run: the text of the first completion when that asks for no
    tool; the literal fallback when its first function call is not the
    registered tool; the text of the second completion, the answer to the
    request that carries the tool's output, when it is. *)
Theorem chat_answer_provenance
    (settings : Settings.t) (str_upper : string -> string) (report : string)
    (client : Client.t) (session_id : string)
    (request : ChatRequest.t) (tr : Trace) (msg : ChatMessage.t) :
  (chat_with_ai settings str_upper report (Some client) session_id request tr).1
  = inr msg ->
  ChatRequest.history request = [] /\
  exists r1 : GenerateContentResponse.t,
    Client.respond client tr (first_query settings str_upper request []) = inr r1 /\
    match GenerateContentResponse.function_calls r1 with
    | Some (fc :: _) =>
        if bool_decide (FunctionCall.name fc = Some "get_user_trade_summary") then
          exists r2 : GenerateContentResponse.t,
            Client.respond client
              (tr ++ [GenerateContent (first_query settings str_upper request []);
                      ToolInvocation "get_user_trade_summary"
                        (ChatRequest.user_id request)])
              (second_query settings [] (trade_summary (ChatRequest.user_id request)))
            = inr r2 /\
            GenerateContentResponse.text r2 = Some (ChatMessage.content msg)
        else ChatMessage.content msg = "ERROR: Unknown tool requested."
    | Some [] | None =>
        GenerateContentResponse.text r1 = Some (ChatMessage.content msg)
    end.
Proof.
  chat_cases client tr request; cbn [fst ChatMessage.init];
    try discriminate;
    repeat match goal with
           | |- context [ChatMessage.init _ _ ?t] =>
               destruct t as [text|] eqn:Htext; cbn
           end;
    try discriminate; intros [= <-]; cbn [ChatMessage.content];
    (split; [reflexivity|]); exists r1; (split; [reflexivity|]);
    rewrite Hcalls; try assumption.
  - rewrite bool_decide_eq_true_2 by assumption.
    exists r2. rewrite <- app_assoc in Hsecond. auto.
  - now rewrite bool_decide_eq_false_2 by assumption.
Qed.

(** X11.  The tagging endpoint with a client always makes exactly one
    provider request and no tool invocation.  The tags it returns are the
    ones the validation gave for the provider's text; it raises 502 only
    for an [APIError] of the provider, and 500 otherwise. *)
Theorem tag_trade_outcome
    (settings : Settings.t) (model_validate_json : option string -> string + TaggingResponse.t)
    (client : Client.t) (request : TaggingRequest.t) (tr : Trace) :
  (tag_trade settings model_validate_json (Some client) request tr).2
  = tr ++ [GenerateContent (tagging_call settings request)] /\
  match (tag_trade settings model_validate_json (Some client) request tr).1 with
  | inr parsed =>
      exists response : GenerateContentResponse.t,
        Client.respond client tr (tagging_call settings request) = inr response /\
        model_validate_json (GenerateContentResponse.text response) = inr parsed
  | inl e =>
      HTTPException.status_code e = 502%Z /\
      (exists message : string,
         Client.respond client tr (tagging_call settings request) = inl (APIError message) /\
         HTTPException.detail e = "Gemini API Error during tagging: " +:+ message)
      \/ HTTPException.status_code e = 500%Z /\
         (forall message : string,
            Client.respond client tr (tagging_call settings request)
            <> inl (APIError message))
  end.
Proof.
  rewrite tag_trade_run. cbn [fst snd]. split; [reflexivity|].
  destruct (Client.respond client tr _) as [e|response] eqn:Hresponse.
  - destruct e as [message|message|message]; cbn.
    + left. eauto.
    + right. split; [reflexivity | discriminate].
    + right. split; [reflexivity | discriminate].
  - destruct (model_validate_json _) as [message|parsed] eqn:Hvalid.
    + right. split; [reflexivity | discriminate].
    + eauto.
Qed.

(** ** The texts the endpoints build *)

Lemma string_length_app (s1 s2 : string) :
  String.length (s1 +:+ s2) = String.length s1 + String.length s2.
Proof.
  induction s1 as [|a s1 IH]; [reflexivity|].
  change (S (String.length (s1 +:+ s2)) = S (String.length s1 + String.length s2)).
  now rewrite IH.
Qed.

Lemma string_app_inv_tail (s1 s2 tail : string) :
  s1 +:+ tail = s2 +:+ tail -> s1 = s2.
Proof.
  revert s2. induction s1 as [|a s1 IH]; intros [|b s2] Heq.
  - reflexivity.
  - change (tail = String b (s2 +:+ tail)) in Heq.
    apply (f_equal String.length) in Heq.
    cbn [String.length] in Heq. rewrite string_length_app in Heq. lia.
  - change (String a (s1 +:+ tail) = tail) in Heq.
    apply (f_equal String.length) in Heq.
    cbn [String.length] in Heq. rewrite string_length_app in Heq. lia.
  - change (String a (s1 +:+ tail) = String b (s2 +:+ tail)) in Heq.
    injection Heq as -> Htail. f_equal. now apply IH.
Qed.

(** A text placed between a fixed prefix and a fixed suffix can be read
    back: the f-strings of the module lose nothing of what they embed. *)
Lemma embedded_text_inj (before after s1 s2 : string) :
  before +:+ s1 +:+ after = before +:+ s2 +:+ after -> s1 = s2.
Proof.
  intros Heq. apply (inj (String.app before)) in Heq.
  exact (string_app_inv_tail _ _ _ Heq).
Qed.

(** X15.  The summary the tool returns names the user it was asked for:
    two different ids never give the same text. *)
Theorem trade_summary_injective (user_id user_id' : string) :
  user_id <> user_id' -> trade_summary user_id <> trade_summary user_id'.
Proof.
  intros Hne Heq. apply Hne. unfold trade_summary in Heq.
  apply (inj (String.app LF)) in Heq.
  exact (embedded_text_inj _ _ _ _ Heq).
Qed.

(** X16.  The tagging prompt carries the notes as they are: two different
    notes never give the same prompt, hence never the same request. *)
Theorem tagging_prompt_injective
    (settings : Settings.t) (request request' : TaggingRequest.t) :
  request <> request' ->
  tagging_prompt request <> tagging_prompt request' /\
  tagging_call settings request <> tagging_call settings request'.
Proof.
  intros Hne.
  assert (Hprompt : tagging_prompt request <> tagging_prompt request').
  { intros Heq. apply Hne. unfold tagging_prompt in Heq.
    do 10 match type of Heq with
          | ?p +:+ _ = _ => apply (inj (String.app p)) in Heq
          end.
    apply embedded_text_inj in Heq.
    destruct request, request'. cbn in Heq. now subst. }
  split; [exact Hprompt|].
  intros Heq. apply Hprompt.
  unfold tagging_call in Heq. congruence.
Qed.

(** X17.  The plan reaches the provider only through [str.upper]: two
    requests whose plans have the same upper-case form give the same run. *)
Theorem chat_plan_case_insensitive
    (settings : Settings.t) (str_upper : string -> string) (report : string)
    (LLM_CLIENT : option Client.t) (session_id : string)
    (user_id plan plan' : string) (history : list ChatMessage.t)
    (new_message : ChatMessage.t) (tr : Trace) :
  str_upper plan = str_upper plan' ->
  chat_with_ai settings str_upper report LLM_CLIENT session_id
    (ChatRequest.mk user_id plan history new_message) tr
  = chat_with_ai settings str_upper report LLM_CLIENT session_id
      (ChatRequest.mk user_id plan' history new_message) tr.
Proof.
  intros Hplan.
  unfold chat_with_ai, first_query, system_instruction.
  cbn [ChatRequest.user_plan]. now rewrite Hplan.
Qed.

(** ** The routes, the declared tool and the client handle *)

(** X18.  A protected route runs its endpoint only for the secret.  With
    the secret in the header the answer is the endpoint's: 200 with its
    result, the status and detail of the [HTTPException] it raised, or the
    plain 500 of an exception it let escape.  A changed trace or a result
    in the body both mean that the header was the secret. *)
Theorem protected_route_runs_endpoint_only_with_secret
    {A : Type} (settings : Settings.t) (endpoint : M raised A)
    (auth_header : option string) (tr : Trace) :
  let out := protected_route settings endpoint auth_header tr in
  (auth_header = Some (Settings.AI_SERVICE_SECRET_KEY settings) ->
   out.2 = (endpoint tr).2 /\
   out.1 = match (endpoint tr).1 with
           | inr a => HttpResponse.mk status.HTTP_200_OK (ModelBody a)
           | inl (Http e) =>
               HttpResponse.mk (HTTPException.status_code e)
                 (DetailBody (HTTPException.detail e))
           | inl (Uncaught _) =>
               HttpResponse.mk status.HTTP_500_INTERNAL_SERVER_ERROR
                 (PlainTextBody "Internal Server Error")
           end) /\
  (out.2 <> tr -> auth_header = Some (Settings.AI_SERVICE_SECRET_KEY settings)) /\
  (forall a : A,
     HttpResponse.body out.1 = ModelBody a ->
     auth_header = Some (Settings.AI_SERVICE_SECRET_KEY settings) /\
     (endpoint tr).1 = inr a).
Proof.
  intros out. subst out.
  destruct (decide (auth_header = Some (Settings.AI_SERVICE_SECRET_KEY settings)))
    as [-> | Hne].
  - unfold protected_route, verify_internal_auth.
    rewrite bool_decide_eq_false_2 by auto.
    destruct (endpoint tr) as [[[e|e]|a] tr']; cbn.
    + repeat split; auto; discriminate.
    + repeat split; auto; discriminate.
    + repeat split; auto; congruence.
  - rewrite protected_route_rejects by exact Hne. cbn.
    split; [contradiction|]. split; [contradiction|].
    intros a. destruct auth_header; discriminate.
Qed.





(** X20.  On an empty history the name the endpoint dispatches on is the
    one it declares: when the first completion asks for a tool by name,
    the tool runs exactly when that name is declared in [TOOL_CONFIG]; for
    a name that is not declared the answer is the fallback text. *)
Theorem dispatch_matches_declaration
    (settings : Settings.t) (str_upper : string -> string) (report : string)
    (client : Client.t) (session_id : string)
    (request : ChatRequest.t) (tr : Trace)
    (r1 : GenerateContentResponse.t) (fc : FunctionCall.t) (rest : list FunctionCall.t)
    (name : string) :
  ChatRequest.history request = [] ->
  Client.respond client tr (first_query settings str_upper request []) = inr r1 ->
  GenerateContentResponse.function_calls r1 = Some (fc :: rest) ->
  FunctionCall.name fc = Some name ->
  let out := chat_with_ai settings str_upper report (Some client) session_id request tr in
  (name ∈ declared_tools <-> tool_calls out.2 = tool_calls tr + 1) /\
  (name ∉ declared_tools ->
   out.1 = inr (ChatMessage.mk MessageRole.ASSISTANT "ERROR: Unknown tool requested."
                  None None)).
Proof.
  intros Hhistory H1 Hcalls Hname out. subst out.
  assert (Hdeclared : name ∈ declared_tools <-> name = "get_user_trade_summary").
  { unfold declared_tools. cbn. rewrite list_elem_of_singleton. reflexivity. }
  rewrite Hdeclared.
  destruct (decide (name = "get_user_trade_summary")) as [-> | Hne].
  - rewrite (chat_tool_branch settings str_upper report client session_id request tr
               r1 fc rest Hhistory H1 Hcalls Hname).
    cbn [snd]. rewrite !tool_calls_app. cbn.
    split; [split; [lia | reflexivity] | contradiction].
  - rewrite (chat_unknown_tool_branch settings str_upper report client session_id request
               tr r1 fc rest Hhistory H1 Hcalls) by congruence.
    cbn [fst snd]. rewrite tool_calls_app. cbn.
    split; [split; [contradiction | lia] | reflexivity].
Qed.

(** X21.  The error "AI Service is not initialized." is the mark of a
    missing client and of nothing else: either endpoint raises it exactly
    when the handle is [None]. *)
Theorem not_initialized_only_without_client
    (settings : Settings.t) (str_upper : string -> string) (report : string)
    (model_validate_json : option string -> string + TaggingResponse.t)
    (LLM_CLIENT : option Client.t) (tagging_request : TaggingRequest.t)
    (session_id : string) (chat_request : ChatRequest.t) (tr : Trace) :
  let unavailable :=
    HTTPException.mk status.HTTP_500_INTERNAL_SERVER_ERROR "AI Service is not initialized." in
  ((tag_trade settings model_validate_json LLM_CLIENT tagging_request tr).1
   = inl unavailable <-> LLM_CLIENT = None) /\
  ((chat_with_ai settings str_upper report LLM_CLIENT session_id chat_request tr).1
   = inl (Http unavailable) <-> LLM_CLIENT = None).
Proof.
  intros unavailable. subst unavailable.
  destruct LLM_CLIENT as [client|]; [|split; split; reflexivity].
  split; (split; [|discriminate]); intros Hout; exfalso; revert Hout.
  - rewrite tag_trade_run. cbn [fst].
    destruct (Client.respond client tr _) as [x|response].
    + destruct x; intros Hout; vm_compute in Hout; discriminate.
    + destruct (model_validate_json _); intros Hout; vm_compute in Hout; discriminate.
  - chat_cases client tr chat_request; cbn [fst ChatMessage.init];
      repeat match goal with
             | |- context [ChatMessage.init _ _ ?t] => destruct t; cbn
             end;
      try discriminate;
      try match goal with
          | |- context [chat_with_ai_except ?x] => destruct x
          end;
      intros Hout; vm_compute in Hout; discriminate.
Qed.

(** X22.  The first request does not carry the [user_id]: when the first
    completion does not ask for the registered tool, the whole run is the
    same for any other [user_id].  The id reaches the provider only inside
    the tool's summary, in the second request. *)
Theorem chat_user_id_only_reaches_tool
    (settings : Settings.t) (str_upper : string -> string) (report : string)
    (client : Client.t) (session_id : string)
    (user_id user_id' user_plan : string) (history : list ChatMessage.t)
    (new_message : ChatMessage.t) (tr : Trace) (r1 : GenerateContentResponse.t) :
  Client.respond client tr
    (first_query settings str_upper
       (ChatRequest.mk user_id user_plan history new_message) [])
  = inr r1 ->
  (forall (fc : FunctionCall.t) (rest : list FunctionCall.t),
     GenerateContentResponse.function_calls r1 = Some (fc :: rest) ->
     FunctionCall.name fc <> Some "get_user_trade_summary") ->
  chat_with_ai settings str_upper report (Some client) session_id
    (ChatRequest.mk user_id user_plan history new_message) tr
  = chat_with_ai settings str_upper report (Some client) session_id
      (ChatRequest.mk user_id' user_plan history new_message) tr.
Proof.
  intros H1 Hother.
  rewrite !chat_with_ai_run. cbv zeta. cbn [ChatRequest.history].
  destruct history as [|msg history]; [|reflexivity].
  change (first_query settings str_upper
            (ChatRequest.mk user_id' user_plan [] new_message) [])
    with (first_query settings str_upper
            (ChatRequest.mk user_id user_plan [] new_message) []).
  rewrite H1.
  destruct (GenerateContentResponse.function_calls r1) as [[|fc rest]|] eqn:Hcalls;
    try reflexivity.
  rewrite bool_decide_eq_false_2 by exact (Hother fc rest eq_refl).
  reflexivity.
Qed.

(** X23.  With a client, a history that holds at least one message stops
    the chat endpoint in the loop that builds the provider messages: the
    [TypeError] of [Part.from_text] escapes, no provider request and no
    tool invocation is made, whatever the provider would answer, and the
    route, given the secret, answers a plain 500. *)
Theorem chat_nonempty_history_is_server_error
    (settings : Settings.t) (str_upper : string -> string) (report : string)
    (client : Client.t) (session_id : string) (request : ChatRequest.t) (tr : Trace) :
  ChatRequest.history request <> [] ->
  gemini_contents (ChatRequest.history request) = inl Part.TypeError /\
  chat_with_ai settings str_upper report (Some client) session_id request tr
  = (inl (Uncaught Part.TypeError), tr) /\
  post_chat settings str_upper report (Some client)
    (Some (Settings.AI_SERVICE_SECRET_KEY settings)) session_id request tr
  = (HttpResponse.mk status.HTTP_500_INTERNAL_SERVER_ERROR
       (PlainTextBody "Internal Server Error"), tr).
Proof.
  intros Hhistory.
  split; [now apply gemini_contents_nonempty|].
  pose proof (chat_nonempty_history_escapes settings str_upper report client session_id
                request tr Hhistory) as Hrun.
  split; [exact Hrun|].
  unfold post_chat, protected_route, verify_internal_auth.
  rewrite bool_decide_eq_false_2 by auto.
  now rewrite Hrun.
Qed.

(** ** The properties at concrete requests *)

(** The scenario of the specification, one question in the history, stops
    in the loop; the same exchange on an empty history goes through. *)
Lemma chat_registered_tool_round_trip_witness :
  Client.respond win_rate_client []
    (first_query demo_settings ascii_upper win_rate_request [])
  = tool_answer "get_user_trade_summary" "u1" /\
  chat_with_ai demo_settings ascii_upper demo_report (Some win_rate_client) "session-1"
    win_rate_request []
  = (inl (Uncaught Part.TypeError), []) /\
  (chat_with_ai demo_settings ascii_upper demo_report (Some win_rate_client) "session-1"
     first_question_request []).1
  = inr (ChatMessage.mk "assistant" "Your win rate is 70%." None None) /\
  gateway_calls
    (chat_with_ai demo_settings ascii_upper demo_report (Some win_rate_client) "session-1"
       first_question_request []).2
  = 2.
Proof.
  destruct (chat_registered_tool_round_trip demo_settings ascii_upper demo_report
              win_rate_client "session-1" win_rate_request []
              (GenerateContentResponse.mk None
                 (Some [FunctionCall.mk (Some "get_user_trade_summary")
                          (Some {[ "user_id" := JString "u1" ]})]))
              (FunctionCall.mk (Some "get_user_trade_summary")
                 (Some {[ "user_id" := JString "u1" ]}))
              [] eq_refl eq_refl eq_refl)
    as [_ Hfails].
  destruct (chat_registered_tool_round_trip demo_settings ascii_upper demo_report
              win_rate_client "session-1" first_question_request []
              (GenerateContentResponse.mk None
                 (Some [FunctionCall.mk (Some "get_user_trade_summary")
                          (Some {[ "user_id" := JString "u1" ]})]))
              (FunctionCall.mk (Some "get_user_trade_summary")
                 (Some {[ "user_id" := JString "u1" ]}))
              [] eq_refl eq_refl eq_refl)
    as [Hworks _].
  destruct (Hfails ltac:(discriminate)) as (Hrun & _ & _).
  destruct (Hworks eq_refl) as (_ & _ & Hgateway & Hmsg).
  split; [reflexivity|]. split; [exact Hrun|]. split; [|exact Hgateway].
  apply Hmsg.
  exists (GenerateContentResponse.mk (Some "Your win rate is 70%.") None),
         "Your win rate is 70%.".
  repeat split.
Defined.

(** C2 fails as stated: on an empty history the completion asks for the
    summary of "u2", the request is of "u1", and the tool is invoked on
    "u1". *)
Lemma chat_tool_arguments_counterexample :
  ChatRequest.history first_question_request = [] /\
  Client.respond other_user_client []
    (first_query demo_settings ascii_upper first_question_request [])
  = inr (GenerateContentResponse.mk None
           (Some [FunctionCall.mk (Some "get_user_trade_summary")
                    (Some {[ "user_id" := JString "u2" ]})])) /\
  ({[ "user_id" := JString "u2" ]} : gmap string json) !! "user_id" = Some (JString "u2") /\
  ChatRequest.user_id first_question_request = "u1" /\
  tool_arguments
    (chat_with_ai demo_settings ascii_upper demo_report (Some other_user_client)
       "session-1" first_question_request []).2
  = ["u1"] /\
  tool_arguments
    (chat_with_ai demo_settings ascii_upper demo_report (Some other_user_client)
       "session-1" first_question_request []).2
  <> ["u2"].
Proof.
  assert (Hrun :
    tool_arguments
      (chat_with_ai demo_settings ascii_upper demo_report (Some other_user_client)
         "session-1" first_question_request []).2
    = ["u1"]) by (vm_compute; reflexivity).
  repeat split; try exact Hrun; try reflexivity.
  rewrite Hrun. discriminate.
Qed.

Lemma chat_tool_invoked_with_request_user_id_witness :
  tool_arguments
    (chat_with_ai demo_settings ascii_upper demo_report (Some other_user_client)
       "session-1" first_question_request []).2
  = ["u1"].
Proof.
  exact (proj2
           (chat_tool_invoked_with_request_user_id demo_settings ascii_upper demo_report
              other_user_client "session-1" first_question_request []
              (GenerateContentResponse.mk None
                 (Some [FunctionCall.mk (Some "get_user_trade_summary")
                          (Some {[ "user_id" := JString "u2" ]})]))
              (FunctionCall.mk (Some "get_user_trade_summary")
                 (Some {[ "user_id" := JString "u2" ]}))
              [] eq_refl eq_refl eq_refl)
           eq_refl).
Defined.

Lemma chat_unknown_tool_fallback_witness :
  post_chat demo_settings ascii_upper demo_report (Some unknown_tool_client)
    (Some "s3cret") "session-1" win_rate_request []
  = (HttpResponse.mk 500 (PlainTextBody "Internal Server Error"), []) /\
  (chat_with_ai demo_settings ascii_upper demo_report (Some unknown_tool_client)
     "session-1" first_question_request []).1
  = inr (ChatMessage.mk "assistant" "ERROR: Unknown tool requested." None None) /\
  gateway_calls
    (chat_with_ai demo_settings ascii_upper demo_report (Some unknown_tool_client)
       "session-1" first_question_request []).2
  = 1.
Proof.
  destruct (chat_unknown_tool_fallback demo_settings ascii_upper demo_report
              unknown_tool_client "session-1" win_rate_request []
              (GenerateContentResponse.mk None
                 (Some [FunctionCall.mk (Some "delete_all_trades")
                          (Some {[ "user_id" := JString "u1" ]})]))
              (FunctionCall.mk (Some "delete_all_trades")
                 (Some {[ "user_id" := JString "u1" ]}))
              [] eq_refl eq_refl ltac:(discriminate))
    as [_ Hfails].
  destruct (chat_unknown_tool_fallback demo_settings ascii_upper demo_report
              unknown_tool_client "session-1" first_question_request []
              (GenerateContentResponse.mk None
                 (Some [FunctionCall.mk (Some "delete_all_trades")
                          (Some {[ "user_id" := JString "u1" ]})]))
              (FunctionCall.mk (Some "delete_all_trades")
                 (Some {[ "user_id" := JString "u1" ]}))
              [] eq_refl eq_refl ltac:(discriminate))
    as [Hworks _].
  destruct (Hfails ltac:(discriminate)) as [_ Hroute].
  destruct (Hworks eq_refl) as (Hmsg & _ & Hgateway & _ & _).
  split; [exact Hroute | split; [exact Hmsg | exact Hgateway]].
Defined.

Lemma chat_plain_text_verbatim_witness :
  chat_with_ai demo_settings ascii_upper demo_report (Some plain_text_client) "session-1"
    win_rate_request []
  = (inl (Uncaught Part.TypeError), []) /\
  (chat_with_ai demo_settings ascii_upper demo_report (Some plain_text_client) "session-1"
     first_question_request []).1
  = inr (ChatMessage.mk "assistant" "Hello, how can I help?" None None).
Proof.
  destruct (chat_plain_text_verbatim demo_settings ascii_upper demo_report
              plain_text_client "session-1" win_rate_request []
              (GenerateContentResponse.mk (Some "Hello, how can I help?") None)
              "Hello, how can I help?" eq_refl (or_introl eq_refl) eq_refl)
    as [_ Hfails].
  destruct (chat_plain_text_verbatim demo_settings ascii_upper demo_report
              plain_text_client "session-1" first_question_request []
              (GenerateContentResponse.mk (Some "Hello, how can I help?") None)
              "Hello, how can I help?" eq_refl (or_introl eq_refl) eq_refl)
    as [Hworks _].
  split; [exact (Hfails ltac:(discriminate)) | exact (proj1 (Hworks eq_refl))].
Defined.


(** C7 fails as stated: the provider answers in prose, the text does not
    validate, and the route answers 500, not 502. *)
Lemma tagging_invalid_output_counterexample :
  Client.respond prose_client [] (tagging_call demo_settings fear_request)
  = inr (GenerateContentResponse.mk (Some "Sure! Here are some tags") None) /\
  validator_of_table [] (Some "Sure! Here are some tags") = inl "Invalid JSON" /\
  (post_tag_trade demo_settings (validator_of_table []) (Some prose_client)
     (Some "s3cret") fear_request []).1
  = HttpResponse.mk 500 (DetailBody "An unexpected error occurred: Invalid JSON") /\
  HttpResponse.status_code
    (post_tag_trade demo_settings (validator_of_table []) (Some prose_client)
       (Some "s3cret") fear_request []).1
  <> status.HTTP_502_BAD_GATEWAY.
Proof.
  repeat split; try reflexivity.
  vm_compute. discriminate.
Qed.

Lemma tagging_invalid_output_is_unexpected_error_witness :
  tag_trade demo_settings (validator_of_table []) (Some prose_client) fear_request []
  = (inl (HTTPException.mk 500 "An unexpected error occurred: Invalid JSON"),
     [GenerateContent (tagging_call demo_settings fear_request)]).
Proof.
  exact (proj1 (tagging_invalid_output_is_unexpected_error demo_settings
                  (validator_of_table []) prose_client fear_request []
                  (GenerateContentResponse.mk (Some "Sure! Here are some tags") None)
                  "Invalid JSON" eq_refl eq_refl)).
Defined.

Lemma uninitialized_client_is_service_unavailable_witness :
  LLM_CLIENT_init failing_constructor demo_settings = None /\
  tag_trade demo_settings (validator_of_table [])
    (LLM_CLIENT_init failing_constructor demo_settings) fear_request []
  = (inl (HTTPException.mk 500 "AI Service is not initialized."), []) /\
  chat_with_ai demo_settings ascii_upper demo_report
    (LLM_CLIENT_init failing_constructor demo_settings) "session-1" win_rate_request []
  = (inl (Http (HTTPException.mk 500 "AI Service is not initialized.")), []).
Proof.
  exact (uninitialized_client_is_service_unavailable demo_settings ascii_upper demo_report
           (validator_of_table []) failing_constructor
           (OtherException "Missing key inputs argument!")
           fear_request "session-1" win_rate_request [] eq_refl).
Defined.

Lemma auth_rejected_before_any_call_witness :
  (post_tag_trade demo_settings (validator_of_table []) (Some win_rate_client)
     (Some "guess") fear_request []).1
  = HttpResponse.mk 401 (DetailBody "Invalid microservice authentication key.") /\
  (post_tag_trade demo_settings (validator_of_table []) (Some win_rate_client)
     (Some "guess") fear_request []).2 = [] /\
  (post_chat demo_settings ascii_upper demo_report (Some win_rate_client) (Some "guess")
     "session-1" win_rate_request []).1
  = HttpResponse.mk 401 (DetailBody "Invalid microservice authentication key.") /\
  (post_chat demo_settings ascii_upper demo_report (Some win_rate_client) (Some "guess")
     "session-1" win_rate_request []).2 = [].
Proof.
  destruct (auth_rejected_before_any_call demo_settings ascii_upper demo_report
              (validator_of_table []) (Some win_rate_client) (Some "guess") fear_request
              "session-1" win_rate_request [] ltac:(discriminate))
    as (Htag_trace & Hchat_trace & Hwrong & _ & _).
  destruct (Hwrong "guess" eq_refl) as [Htag Hchat].
  exact (conj Htag (conj Htag_trace (conj Hchat Hchat_trace))).
Defined.

Lemma chat_first_query_error_witness :
  chat_with_ai demo_settings ascii_upper demo_report (Some rate_limited_client)
    "session-1" first_question_request []
  = (inl (Http (HTTPException.mk 502 "Gemini API Error: 429 RESOURCE_EXHAUSTED")),
     [GenerateContent (first_query demo_settings ascii_upper first_question_request [])]).
Proof.
  exact (chat_first_query_error demo_settings ascii_upper demo_report rate_limited_client
           "session-1" first_question_request [] (APIError "429 RESOURCE_EXHAUSTED")
           eq_refl eq_refl).
Defined.

Lemma chat_second_query_api_error_witness :
  (chat_with_ai demo_settings ascii_upper demo_report (Some tool_then_error_client)
     "session-1" first_question_request []).1
  = inl (Http (HTTPException.mk 502 "Gemini API Error: 503 UNAVAILABLE")).
Proof.
  exact (f_equal fst
           (chat_second_query_api_error demo_settings ascii_upper demo_report
              tool_then_error_client "session-1" first_question_request []
              (GenerateContentResponse.mk None
                 (Some [FunctionCall.mk (Some "get_user_trade_summary")
                          (Some {[ "user_id" := JString "u1" ]})]))
              (FunctionCall.mk (Some "get_user_trade_summary")
                 (Some {[ "user_id" := JString "u1" ]}))
              [] "503 UNAVAILABLE" eq_refl eq_refl eq_refl eq_refl eq_refl)).
Defined.

Lemma chat_empty_completion_is_unexpected_error_witness :
  (chat_with_ai demo_settings ascii_upper demo_report (Some empty_completion_client)
     "session-1" first_question_request []).1
  = inl (Http (HTTPException.mk 500
                 "An unexpected error occurred in the chat processing flow: Input should be a valid string")).
Proof.
  exact (chat_empty_completion_is_unexpected_error demo_settings ascii_upper demo_report
           empty_completion_client "session-1" first_question_request []
           (GenerateContentResponse.mk None None) eq_refl eq_refl eq_refl eq_refl).
Defined.

Lemma tagging_valid_output_returned_witness :
  (tag_trade demo_settings (validator_of_table [(fomo_json, ["FOMO"])])
     (Some fomo_client) fear_request []).1
  = inr (TaggingResponse.mk ["FOMO"]).
Proof.
  exact (f_equal fst
           (proj1 (tagging_valid_output_returned demo_settings
                     (validator_of_table [(fomo_json, ["FOMO"])]) fomo_client
                     fear_request [] (GenerateContentResponse.mk (Some fomo_json) None)
                     (TaggingResponse.mk ["FOMO"]) eq_refl eq_refl))).
Defined.

Lemma tagging_api_error_is_bad_gateway_witness :
  (tag_trade demo_settings (validator_of_table []) (Some rate_limited_client)
     fear_request []).1
  = inl (HTTPException.mk 502 "Gemini API Error during tagging: 429 RESOURCE_EXHAUSTED").
Proof.
  exact (f_equal fst
           (tagging_api_error_is_bad_gateway demo_settings (validator_of_table [])
              rate_limited_client fear_request [] "429 RESOURCE_EXHAUSTED" eq_refl)).
Defined.

Lemma chat_bad_gateway_only_on_api_error_witness :
  exists (client : Client.t) (message : string),
    Some rate_limited_client = Some client /\
    ChatRequest.history first_question_request = [] /\
    "Gemini API Error: 429 RESOURCE_EXHAUSTED" = "Gemini API Error: " +:+ message /\
    (Client.respond client []
       (first_query demo_settings ascii_upper first_question_request [])
     = inl (APIError message)
     \/ Client.respond client
          ([] ++ [GenerateContent
                    (first_query demo_settings ascii_upper first_question_request []);
                  ToolInvocation "get_user_trade_summary" "u1"])
          (second_query demo_settings [] (trade_summary "u1"))
        = inl (APIError message)).
Proof.
  exact (chat_bad_gateway_only_on_api_error demo_settings ascii_upper demo_report
           (Some rate_limited_client) "session-1" first_question_request []
           (HTTPException.mk 502 "Gemini API Error: 429 RESOURCE_EXHAUSTED")
           eq_refl eq_refl).
Defined.

Lemma chat_answer_provenance_witness :
  exists r2 : GenerateContentResponse.t,
    Client.respond win_rate_client
      ([] ++ [GenerateContent
                (first_query demo_settings ascii_upper first_question_request []);
              ToolInvocation "get_user_trade_summary" "u1"])
      (second_query demo_settings [] (trade_summary "u1"))
    = inr r2 /\
    GenerateContentResponse.text r2 = Some "Your win rate is 70%.".
Proof.
  destruct (chat_answer_provenance demo_settings ascii_upper demo_report win_rate_client
              "session-1" first_question_request []
              (ChatMessage.mk "assistant" "Your win rate is 70%." None None) eq_refl)
    as (_ & r1 & H1 & Hbranch).
  injection H1 as <-. exact Hbranch.
Defined.

Lemma trade_summary_injective_witness :
  trade_summary "u1" <> trade_summary "u2".
Proof.
  exact (trade_summary_injective "u1" "u2" ltac:(discriminate)).
Defined.

Lemma tagging_prompt_injective_witness :
  tagging_prompt fear_request <> tagging_prompt (TaggingRequest.mk "Held through the stop") /\
  tagging_call demo_settings fear_request
  <> tagging_call demo_settings (TaggingRequest.mk "Held through the stop").
Proof.
  exact (tagging_prompt_injective demo_settings fear_request
           (TaggingRequest.mk "Held through the stop") ltac:(discriminate)).
Defined.

Lemma chat_plan_case_insensitive_witness :
  chat_with_ai demo_settings ascii_upper demo_report (Some plain_text_client) "session-1"
    (ChatRequest.mk "u1" "pro" [] (user_says "Hello?")) []
  = chat_with_ai demo_settings ascii_upper demo_report (Some plain_text_client) "session-1"
      (ChatRequest.mk "u1" "Pro" [] (user_says "Hello?")) [].
Proof.
  exact (chat_plan_case_insensitive demo_settings ascii_upper demo_report
           (Some plain_text_client) "session-1" "u1" "pro" "Pro" []
           (user_says "Hello?") [] eq_refl).
Defined.

Lemma dispatch_matches_declaration_witness :
  ("delete_all_trades" ∉ declared_tools) /\
  (chat_with_ai demo_settings ascii_upper demo_report (Some unknown_tool_client)
     "session-1" first_question_request []).1
  = inr (ChatMessage.mk "assistant" "ERROR: Unknown tool requested." None None).
Proof.
  destruct (dispatch_matches_declaration demo_settings ascii_upper demo_report
              unknown_tool_client "session-1" first_question_request []
              (GenerateContentResponse.mk None
                 (Some [FunctionCall.mk (Some "delete_all_trades")
                          (Some {[ "user_id" := JString "u1" ]})]))
              (FunctionCall.mk (Some "delete_all_trades")
                 (Some {[ "user_id" := JString "u1" ]}))
              [] "delete_all_trades" eq_refl eq_refl eq_refl eq_refl)
    as [Hiff Hfallback].
  assert (Hnot : "delete_all_trades" ∉ declared_tools).
  { intros Hin. apply Hiff in Hin. vm_compute in Hin. discriminate. }
  split; [exact Hnot | exact (Hfallback Hnot)].
Defined.

Lemma chat_user_id_only_reaches_tool_witness :
  chat_with_ai demo_settings ascii_upper demo_report (Some plain_text_client) "session-1"
    (ChatRequest.mk "u1" "pro" [] (user_says "Hello?")) []
  = chat_with_ai demo_settings ascii_upper demo_report (Some plain_text_client) "session-1"
      (ChatRequest.mk "u2" "pro" [] (user_says "Hello?")) [].
Proof.
  exact (chat_user_id_only_reaches_tool demo_settings ascii_upper demo_report
           plain_text_client "session-1" "u1" "u2" "pro" [] (user_says "Hello?") []
           (GenerateContentResponse.mk (Some "Hello, how can I help?") None)
           eq_refl ltac:(discriminate)).
Defined.

Lemma chat_nonempty_history_is_server_error_witness :
  chat_with_ai demo_settings ascii_upper demo_report (Some win_rate_client) "session-1"
    win_rate_request []
  = (inl (Uncaught Part.TypeError), []) /\
  post_chat demo_settings ascii_upper demo_report (Some win_rate_client) (Some "s3cret")
    "session-1" win_rate_request []
  = (HttpResponse.mk 500 (PlainTextBody "Internal Server Error"), []).
Proof.
  exact (proj2 (chat_nonempty_history_is_server_error demo_settings ascii_upper demo_report
                  win_rate_client "session-1" win_rate_request [] ltac:(discriminate))).
Defined.
